(** * cinder/volume/driver.py: attach/detach protocol, retrying executor and
      iSCSI connection-property resolution

    A shallow embedding of [VolumeDriver] and [ISCSIDriver] of
    [cinder/volume/driver.py].  Python dictionaries whose key set varies
    (the iSCSI properties, the connector properties, the device handle) are
    finite maps from strings to Python values; dictionaries with a fixed
    shape (the volume row, the connection info) are records.  Effects are
    modelled by a state-and-exception monad over a call trace; everything
    outside the file (the shell, Brick's connectors, [image_utils]) is an
    oracle of the section. *)

From Stdlib Require Import ZArith String Ascii List Lia Bool DecimalString.
From stdpp Require Import base gmap strings list.

Open Scope string_scope.
Open Scope Z_scope.

(** ** Python strings *)

Module PyStr.

Definition LF : ascii := Ascii.ascii_of_nat 10.
Definition CR : ascii := Ascii.ascii_of_nat 13.

(** The characters [str.split()], [str.strip()] and [int()] treat as
    white space: space, TAB, LF, VT, FF and CR. *)
Definition is_space (c : ascii) : bool :=
  let n := Ascii.nat_of_ascii c in
  (Nat.eqb n 32) || ((Nat.leb 9 n) && (Nat.leb n 13)).

(** [item in s] on strings: [item] occurs in [s] as a substring. *)
Fixpoint contains (item s : string) : bool :=
  if String.prefix item s then true
  else match s with
       | EmptyString => false
       | String _ s' => contains item s'
       end.

(** [s.split(sep)] for a one-character separator: consecutive separators
    give empty fields and the result is never empty. *)
Fixpoint split_on (sep : ascii) (s : string) : list string :=
  match s with
  | EmptyString => [EmptyString]
  | String c s' =>
      if Ascii.eqb c sep then EmptyString :: split_on sep s'
      else match split_on sep s' with
           | [] => [String c EmptyString]
           | field :: fields => String c field :: fields
           end
  end.

(** [s.split()]: fields are the maximal runs of non-space characters.
    The helper returns the run that starts at the head of the string
    (possibly empty) and the fields after it. *)
Fixpoint split_ws_from (s : string) : string * list string :=
  match s with
  | EmptyString => (EmptyString, [])
  | String c s' =>
      let '(word, fields) := split_ws_from s' in
      if is_space c
      then (EmptyString,
            match word with EmptyString => fields | _ => word :: fields end)
      else (String c word, fields)
  end.

Definition split (s : string) : list string :=
  let '(word, fields) := split_ws_from s in
  match word with EmptyString => fields | _ => word :: fields end.

(** [s.splitlines()] of a byte string: lines end at LF, CR or CR LF, the
    terminators are dropped and a trailing terminator opens no new line. *)
Fixpoint splitlines (s : string) : list string :=
  match s with
  | EmptyString => []
  | String c s' =>
      if Ascii.eqb c LF then EmptyString :: splitlines s'
      else if Ascii.eqb c CR then
        EmptyString :: splitlines (match s' with
                                   | String c' s'' =>
                                       if Ascii.eqb c' LF then s'' else s'
                                   | EmptyString => s'
                                   end)
      else match splitlines s' with
           | [] => [String c EmptyString]
           | line :: lines => String c line :: lines
           end
  end.

Fixpoint lstrip (s : string) : string :=
  match s with
  | EmptyString => EmptyString
  | String c s' => if is_space c then lstrip s' else s
  end.

Fixpoint rstrip (s : string) : string :=
  match s with
  | EmptyString => EmptyString
  | String c s' =>
      match rstrip s' with
      | EmptyString => if is_space c then EmptyString else String c EmptyString
      | kept => String c kept
      end
  end.

Definition strip (s : string) : string := rstrip (lstrip s).

Definition digit_of (c : ascii) : option Z :=
  let n := Z.of_nat (Ascii.nat_of_ascii c) in
  if (48 <=? n) && (n <=? 57) then Some (n - 48) else None.

Fixpoint digits_value (acc : Z) (s : string) : option Z :=
  match s with
  | EmptyString => Some acc
  | String c s' =>
      match digit_of c with
      | Some d => digits_value (10 * acc + d) s'
      | None => None
      end
  end.

Definition unsigned_literal (s : string) : option Z :=
  match s with
  | EmptyString => None
  | _ => digits_value 0 s
  end.

(** [int(s)] in base ten: surrounding white space is ignored, one sign is
    allowed, at least one digit is required.  [None] stands for the
    [ValueError] of an invalid literal. *)
Definition int (s : string) : option Z :=
  match strip s with
  | String "+" digits => unsigned_literal digits
  | String "-" digits => Z.opp <$> unsigned_literal digits
  | digits => unsigned_literal digits
  end.

(** [s.index(c)] for a character [c]: where it first occurs, and [None] for
    the [ValueError] when it does not. *)
Fixpoint index_char (c : ascii) (s : string) : option nat :=
  match s with
  | EmptyString => None
  | String c' s' =>
      if Ascii.eqb c' c then Some O
      else match index_char c s' with
           | Some i => Some (S i)
           | None => None
           end
  end.

(** [s[n:]] for [n] that is not negative. *)
Fixpoint drop (n : nat) (s : string) : string :=
  match n, s with
  | O, _ => s
  | S n', String _ s' => drop n' s'
  | S _, EmptyString => EmptyString
  end.

End PyStr.

(** ** Values, exceptions and the effect monad *)

Inductive pyval :=
| VNone
| VBool (b : bool)
| VInt (z : Z)
| VStr (s : string).

Abbreviation pydict := (gmap string pyval).

(** [str(v)], which the [%s] conversions of a format apply to their
    argument. *)
Definition py_str (v : pyval) : string :=
  match v with
  | VNone => "None"
  | VBool true => "True"
  | VBool false => "False"
  | VInt z => NilZero.string_of_int (Z.to_int z)
  | VStr s => s
  end.

(** The exceptions that occur in the file, and [OtherError] for whatever
    an external collaborator may raise besides. *)
Inductive exn :=
| ProcessExecutionError (stderr : string)
| NotImplementedError (msg : string)
| DeviceUnavailable (path : pyval) (reason : string)
| InvalidVolume (reason : string)
| IndexError
| KeyError (key : string)
| ValueError (msg : string)
| AttributeError (attr : string)
| OtherError (what : string).

Inductive result (A : Type) :=
| Ok (a : A)
| Err (e : exn).
Arguments Ok {A} a.
Arguments Err {A} e.

(** Rows of the volume table as the driver reads them.  A column that is
    [None] (or, for [provider_geometry], missing) is [None] here. *)
Record volume := {
  name : string;
  host : string;
  id : pyval;
  provider_location : option string;
  provider_auth : option string;
  provider_geometry : option string
}.

(** [{'driver_volume_type': ..., 'data': ...}] *)
Record connection_info := {
  driver_volume_type : string;
  data : pydict
}.

(** The object [InitiatorConnector.factory] returns. *)
Record connector := {
  connector_protocol : string;
  connector_multipath : bool
}.

Inductive log_level := DEBUG | WARN | ERROR | EXCEPTION.

(** Calls that leave the driver, in the order they are made. *)
Inductive event :=
| Execute (command : list string) (kwargs : pydict)
| Sleep (seconds : Z)
| Log (level : log_level) (format : string) (args : list pyval)
| GetConnectorProperties
| InitializeConnection (v : volume) (properties : pydict)
| TgtadmInitializeConnection (v : volume) (properties : pydict)
| Factory (protocol : string) (use_multipath : bool)
| ConnectVolume (c : connector) (conn_data : pydict)
| CheckValidDevice (c : connector) (path : pyval)
| DisconnectVolume (c : connector) (conn_data : pydict) (device : pydict)
| TerminateConnection (v : volume) (properties : pydict)
| FetchToRaw (image_id : string) (path : pyval)
| UploadVolume (image_meta : pydict) (path : pyval).

Abbreviation trace := (list event).

Definition is_execute (ev : event) : bool :=
  match ev with Execute _ _ => true | _ => false end.

Definition is_disconnect (ev : event) : bool :=
  match ev with DisconnectVolume _ _ _ => true | _ => false end.

Definition is_terminate (ev : event) : bool :=
  match ev with TerminateConnection _ _ => true | _ => false end.

Definition is_log (ev : event) : bool :=
  match ev with Log _ _ _ => true | _ => false end.

Definition occurrences (p : event -> bool) (t : trace) : nat :=
  length (List.filter p t).

(** Number of times the shell was invoked. *)
Definition executions (t : trace) : nat := occurrences is_execute t.

Module Eff.

Definition M (A : Type) : Type := trace -> result A * trace.

Definition ret {A} (a : A) : M A := fun t => (Ok a, t).

Definition raise {A} (e : exn) : M A := fun t => (Err e, t).

Definition bind {A B} (c : M A) (k : A -> M B) : M B :=
  fun t =>
    match c t with
    | (Ok a, t') => k a t'
    | (Err e, t') => (Err e, t')
    end.

(** An external call: it is recorded and the oracle's answer returned. *)
Definition call {A} (ev : event) (answer : result A) : M A :=
  fun t => (answer, (t ++ [ev])%list).

Definition emit (ev : event) : M unit := call ev (Ok tt).

(** [try: body finally: cleanup].  The cleanup always runs; when it
    raises, its exception replaces whatever the body produced. *)
Definition try_finally {A} (body : M A) (cleanup : M unit) : M A :=
  fun t =>
    let '(r, t1) := body t in
    match cleanup t1 with
    | (Ok _, t2) => (r, t2)
    | (Err e, t2) => (Err e, t2)
    end.

(** [d[key]] *)
Definition getitem (d : pydict) (key : string) : M pyval :=
  match d !! key with
  | Some v => ret v
  | None => raise (KeyError key)
  end.

(** [l[i]] on a list, for an index that is not negative. *)
Definition index {A} (l : list A) (i : nat) : M A :=
  match l !! i with
  | Some x => ret x
  | None => raise IndexError
  end.

(** [int(s)] *)
Definition int (s : string) : M Z :=
  match PyStr.int s with
  | Some n => ret n
  | None => raise (ValueError "invalid literal for int() with base 10")
  end.

(** [try: body except (...): handler], for the exceptions [caught]
    selects. *)
Definition try_except {A} (caught : exn -> bool) (body handler : M A) : M A :=
  fun t =>
    match body t with
    | (Err e, t') => if caught e then handler t' else (Err e, t')
    | done => done
    end.

End Eff.
Import Eff.

Notation "'let*' x ':=' c 'in' k" := (bind c (fun x => k))
  (at level 10, x pattern, c at level 100, k at level 200).
Notation "c1 ';;;' c2" := (bind c1 (fun _ => c2))
  (at level 100, c2 at level 200, right associativity).

(** ** Configuration *)

Record Configuration := {
  num_shell_tries : Z;
  use_multipath_for_image_xfer : bool;
  iscsi_ip_address : string;
  volume_driver : string;
  iscsi_helper : string
}.

(** The module-level [CONF] object, of which the file reads one option. *)
Record GlobalConf := {
  CONF_iscsi_helper : string
}.

(** ** What the driver calls but does not define

    Each field gives the outcome of one external call.  The shell's outcome
    may change from one invocation to the next, so it is indexed by the
    number of invocations made before. *)
Record Collaborators := {
  execute_outcome : nat -> list string -> pydict -> result (string * string);
  get_connector_properties_outcome : result pydict;
  tgtadm_initialize_connection_outcome :
    option (volume -> pydict -> result unit);
  factory_outcome : string -> bool -> result connector;
  connect_volume_outcome : connector -> pydict -> result pydict;
  check_valid_device_outcome : connector -> pyval -> result bool;
  disconnect_volume_outcome : connector -> pydict -> pydict -> result unit;
  fetch_to_raw_outcome : string -> pyval -> result unit;
  upload_volume_outcome : pydict -> pyval -> result unit
}.

(** The two methods of [VolumeDriver] that the attach protocol calls through
    [self] and that subclasses override. *)
Record Methods := {
  method_initialize_connection : volume -> pydict -> M connection_info;
  method_terminate_connection : volume -> pydict -> M unit
}.

(** ** class VolumeDriver *)

Module VolumeDriver.
Section VolumeDriver.

Variable configuration : Configuration.
Variable env : Collaborators.

(** [self._execute] applied to the command words and keyword arguments. *)
Definition _execute (command : list string) (kwargs : pydict)
  : M (string * string) :=
  fun t =>
    call (Execute command kwargs)
         (execute_outcome env (executions t) command kwargs) t.

Fixpoint _is_non_recoverable (err : string) (non_recoverable_list : list string)
  : bool :=
  match non_recoverable_list with
  | [] => false
  | item :: rest =>
      if PyStr.contains item err then true
      else _is_non_recoverable err rest
  end.

(** The [while True] loop of [_try_execute]; [None] when [fuel] iterations
    did not reach a [return] or a [raise]. *)
Fixpoint _try_execute_loop (fuel : nat) (tries : Z)
         (command : list string) (kwargs : pydict)
         (non_recoverable : list string) (t : trace)
  : option (result bool * trace) :=
  match fuel with
  | O => None
  | S fuel' =>
      match _execute command kwargs t with
      | (Ok _, t1) => Some (Ok true, t1)
      | (Err (ProcessExecutionError stderr), t1) =>
          let tries := tries + 1 in
          if (tries >=? num_shell_tries configuration)
             || _is_non_recoverable stderr non_recoverable
          then Some (Err (ProcessExecutionError stderr), t1)
          else
            let '(_, t2) :=
              (emit (Log EXCEPTION
                         "Recovering from a failed execute.  Try number %s"
                         [VInt tries]) ;;;
               emit (Sleep (tries ^ 2))) t1 in
            _try_execute_loop fuel' tries command kwargs non_recoverable t2
      | (Err ex, t1) => Some (Err ex, t1)
      end
  end.

(** [_try_execute]: [no_retry_list] is the keyword argument it pops, the
    other keyword arguments go on to [_execute].  The loop raises
    at the latest when [tries] reaches [num_shell_tries], so that many
    iterations (and one when the option is not positive) are enough. *)
Definition _try_execute (command : list string) (kwargs : pydict)
           (no_retry_list : list string) (t : trace)
  : option (result bool * trace) :=
  _try_execute_loop (Z.to_nat (Z.max 1 (num_shell_tries configuration))) 0
                    command kwargs no_retry_list t.

Definition initialize_connection (v : volume) (connector_properties : pydict)
  : M connection_info :=
  raise (NotImplementedError "").

Definition terminate_connection (v : volume) (connector_properties : pydict)
  : M unit :=
  raise (NotImplementedError "").

(** The methods below reach [initialize_connection] and
    [terminate_connection] through [self]; the call is recorded before the
    method of the actual class runs. *)
Variable self : Methods.

Definition self_initialize_connection (v : volume) (properties : pydict)
  : M connection_info :=
  emit (InitializeConnection v properties) ;;;
  method_initialize_connection self v properties.

Definition self_terminate_connection (v : volume) (properties : pydict)
  : M unit :=
  emit (TerminateConnection v properties) ;;;
  method_terminate_connection self v properties.

Definition _attach_volume (context : pyval) (v : volume) (properties : pydict)
  : M (connection_info * pydict * connector) :=
  let* conn := self_initialize_connection v properties in
  let use_multipath := use_multipath_for_image_xfer configuration in
  let protocol := driver_volume_type conn in
  let* connector :=
    call (Factory protocol use_multipath)
         (factory_outcome env protocol use_multipath) in
  let* device :=
    call (ConnectVolume connector (data conn))
         (connect_volume_outcome env connector (data conn)) in
  let* host_device := getitem device "path" in
  let* valid :=
    call (CheckValidDevice connector host_device)
         (check_valid_device_outcome env connector host_device) in
  if negb valid
  then raise (DeviceUnavailable
                host_device
                ("Unable to access the backend storage via the path "
                   +:+ py_str host_device +:+ "."))
  else ret (conn, device, connector).

Definition _detach_volume (connection : connection_info) (device : pydict)
           (connector : connector) : M unit :=
  let protocol := driver_volume_type connection in
  call (DisconnectVolume connector (data connection) device)
       (disconnect_volume_outcome env connector (data connection) device).

Definition copy_image_to_volume (context : pyval) (v : volume)
           (image_service : pyval) (image_id : string) : M unit :=
  emit (Log DEBUG "copy_image_to_volume %s." [VStr (name v)]) ;;;
  let* properties :=
    call GetConnectorProperties (get_connector_properties_outcome env) in
  let* (connection, device, connector) :=
    _attach_volume context v properties in
  try_finally
    (let* path := getitem device "path" in
     call (FetchToRaw image_id path) (fetch_to_raw_outcome env image_id path))
    (_detach_volume connection device connector ;;;
     self_terminate_connection v properties).

Definition copy_volume_to_image (context : pyval) (v : volume)
           (image_service : pyval) (image_meta : pydict) : M unit :=
  emit (Log DEBUG "copy_volume_to_image %s." [VStr (name v)]) ;;;
  let* properties :=
    call GetConnectorProperties (get_connector_properties_outcome env) in
  let* (connection, device, connector) :=
    _attach_volume context v properties in
  try_finally
    (let* path := getitem device "path" in
     call (UploadVolume image_meta path)
          (upload_volume_outcome env image_meta path))
    (_detach_volume connection device connector ;;;
     self_terminate_connection v properties).

End VolumeDriver.
End VolumeDriver.

(** ** class ISCSIDriver(VolumeDriver) *)

Module ISCSIDriver.
Section ISCSIDriver.

Variable configuration : Configuration.
Variable CONF : GlobalConf.
Variable env : Collaborators.

(** A value used as a condition: [None] and the empty string are false. *)
Definition truthy (s : option string) : option string :=
  match s with
  | Some EmptyString => None
  | other => other
  end.

Definition _do_iscsi_discovery (v : volume) : M (option string) :=
  emit (Log WARN "ISCSI provider_location not stored, using discovery" []) ;;;
  let volume_name := name v in
  let* (out, _err) :=
    VolumeDriver._execute env
      ["iscsiadm"; "-m"; "discovery"; "-t"; "sendtargets"; "-p"; host v]
      {[ "run_as_root" := VBool true ]} in
  ret (List.find
         (fun target =>
            PyStr.contains (iscsi_ip_address configuration) target
            && PyStr.contains volume_name target)
         (PyStr.splitlines out)).

(** The backend and helper for which a missing LUN means LUN 1. *)
Definition lun_defaults_to_one : bool :=
  (String.eqb (volume_driver configuration)
              "cinder.volume.drivers.lvm.LVMISCSIDriver"
   || String.eqb (volume_driver configuration)
                 "cinder.volume.drivers.lvm.ThinLVMVolumeDriver")
  && String.eqb (iscsi_helper configuration) "tgtadm".

Definition is_index_or_value_error (e : exn) : bool :=
  match e with
  | IndexError | ValueError _ => true
  | _ => false
  end.

(** The [try]/[except] of [_get_iscsi_properties] that sets
    [properties['target_lun']] (lines 365-374). *)
Definition _set_target_lun (results : list string) (properties : pydict)
  : M pydict :=
  try_except is_index_or_value_error
    (let* field := index results 2 in
     let* lun := int field in
     ret (<["target_lun" := VInt lun]> properties))
    (if lun_defaults_to_one
     then ret (<["target_lun" := VInt 1]> properties)
     else ret (<["target_lun" := VInt 0]> properties)).

(** [(a, b, c) = fields] and [(a, b) = fields], with the messages of
    Python 2. *)
Definition unpack_error (expected : nat) (fields : list string) : exn :=
  if Nat.ltb expected (length fields)
  then ValueError "too many values to unpack"
  else match length fields with
       | 0%nat => ValueError "need more than 0 values to unpack"
       | 1%nat => ValueError "need more than 1 value to unpack"
       | _ => ValueError "need more than 2 values to unpack"
       end.

Definition unpack3 (fields : list string) : M (string * string * string) :=
  match fields with
  | [a; b; c] => ret (a, b, c)
  | _ => raise (unpack_error 3 fields)
  end.

Definition unpack2 (fields : list string) : M (string * string) :=
  match fields with
  | [a; b] => ret (a, b)
  | _ => raise (unpack_error 2 fields)
  end.

(** The first block of [_get_iscsi_properties] (lines 344-360): the
    location string the properties are parsed from, and the dictionary
    with [target_discovered] set. *)
Definition _select_location (v : volume) : M (string * pydict) :=
  let properties : pydict := ∅ in
  let location := provider_location v in
  match truthy location with
  | Some location =>
      ret (location, <["target_discovered" := VBool false]> properties)
  | None =>
      let* location := _do_iscsi_discovery v in
      match truthy location with
      | None =>
          raise (InvalidVolume
                   ("Could not find iSCSI export for volume " +:+ name v))
      | Some location =>
          emit (Log DEBUG "ISCSI Discovery: Found %s" [VStr location]) ;;;
          ret (location, <["target_discovered" := VBool true]> properties)
      end
  end.

(** The block that copies [provider_auth] into the properties
    (lines 378-384). *)
Definition _set_auth (v : volume) (properties : pydict) : M pydict :=
  let auth := provider_auth v in
  match truthy auth with
  | Some auth =>
      let* (auth_method, auth_username, auth_secret) :=
        unpack3 (PyStr.split auth) in
      ret (<["auth_password" := VStr auth_secret]>
             (<["auth_username" := VStr auth_username]>
                (<["auth_method" := VStr auth_method]> properties)))
  | None => ret properties
  end.

(** The block that copies [provider_geometry] into the properties
    (lines 386-390). *)
Definition _set_geometry (v : volume) (properties : pydict) : M pydict :=
  let geometry := provider_geometry v in
  match truthy geometry with
  | Some geometry =>
      let* (physical_block_size, logical_block_size) :=
        unpack2 (PyStr.split geometry) in
      ret (<["logical_block_size" := VStr logical_block_size]>
             (<["physical_block_size" := VStr physical_block_size]>
                properties))
  | None => ret properties
  end.

Definition _get_iscsi_properties (v : volume) : M pydict :=
  let* (location, properties) := _select_location v in
  let results := PyStr.split_on " " location in
  let* first := index results 0 in
  let* portal := index (PyStr.split_on "," first) 0 in
  let properties := <["target_portal" := VStr portal]> properties in
  let* iqn := index results 1 in
  let properties := <["target_iqn" := VStr iqn]> properties in
  let* properties := _set_target_lun results properties in
  let properties := <["volume_id" := id v]> properties in
  let* properties := _set_auth v properties in
  let* properties := _set_geometry v properties in
  ret properties.

Definition initialize_connection (v : volume) (connector_properties : pydict)
  : M connection_info :=
  (if String.eqb (CONF_iscsi_helper CONF) "lioadm"
   then match tgtadm_initialize_connection_outcome env with
        | Some tgtadm_initialize_connection =>
            call (TgtadmInitializeConnection v connector_properties)
                 (tgtadm_initialize_connection v connector_properties)
        | None => raise (AttributeError "tgtadm")
        end
   else ret tt) ;;;
  let* iscsi_properties := _get_iscsi_properties v in
  ret {| driver_volume_type := "iscsi"; data := iscsi_properties |}.

Definition terminate_connection (v : volume) (connector_properties : pydict)
  : M unit :=
  ret tt.

(** [utils.read_file_as_root(path)], a call the trace does not record. *)
Variable read_file_as_root_outcome : string -> result string.

Definition read_file_as_root (path : string) : M string :=
  fun t => (read_file_as_root_outcome path, t).

(** The [for] loop of [_get_iscsi_initiator]; falling out of it returns
    [None]. *)
Fixpoint _get_iscsi_initiator_loop (lines : list string) : M (option string) :=
  match lines with
  | [] => ret None
  | l :: lines' =>
      if String.prefix "InitiatorName=" l
      then match PyStr.index_char "=" l with
           | Some i => ret (Some (PyStr.strip (PyStr.drop (i + 1) l)))
           | None => raise (ValueError "substring not found")
           end
      else _get_iscsi_initiator_loop lines'
  end.

Definition _get_iscsi_initiator : M (option string) :=
  let* contents := read_file_as_root "/etc/iscsi/initiatorname.iscsi" in
  _get_iscsi_initiator_loop (PyStr.split_on PyStr.LF contents).

(** The attribute of the driver that the status methods read and write. *)
Record instance := {
  _stats : pydict
}.

(** [self._stats = {}] of [VolumeDriver.__init__]. *)
Definition __init__ : instance := {| _stats := ∅ |}.

(** [self.configuration.safe_get('volume_backend_name')] *)
Variable volume_backend_name : option string.

Definition _update_volume_status (self : instance) : M instance :=
  emit (Log DEBUG "Updating volume status" []) ;;;
  let data : pydict := ∅ in
  let backend_name := volume_backend_name in
  let data :=
    <["volume_backend_name" :=
        VStr (match truthy backend_name with
              | Some backend_name => backend_name
              | None => "Generic_iSCSI"
              end)]> data in
  let data := <["vendor_name" := VStr "Open Source"]> data in
  let data := <["driver_version" := VStr "1.0"]> data in
  let data := <["storage_protocol" := VStr "iSCSI"]> data in
  let data := <["total_capacity_gb" := VStr "infinite"]> data in
  let data := <["free_capacity_gb" := VStr "infinite"]> data in
  let data := <["reserved_percentage" := VInt 100]> data in
  let data := <["QoS_support" := VBool false]> data in
  ret {| _stats := data |}.

(** [get_volume_stats(refresh)]: the stats and the instance afterwards. *)
Definition get_volume_stats (refresh : bool) (self : instance)
  : M (pydict * instance) :=
  let* self := (if refresh then _update_volume_status self else ret self) in
  ret (_stats self, self).

End ISCSIDriver.
End ISCSIDriver.

(** ** class FakeISCSIDriver(ISCSIDriver) *)

Module FakeISCSIDriver.

Definition initialize_connection (v : volume) (connector_properties : pydict)
  : M connection_info :=
  ret {| driver_volume_type := "iscsi"; data := ∅ |}.

Definition terminate_connection (v : volume) (connector_properties : pydict)
  : M unit :=
  ret tt.

End FakeISCSIDriver.

(** ** class FibreChannelDriver(VolumeDriver) *)

Module FibreChannelDriver.

Definition initialize_connection (v : volume) (connector_properties : pydict)
  : M connection_info :=
  raise (NotImplementedError "Driver must implement initialize_connection").

End FibreChannelDriver.

(** ** Method resolution

    The classes of the file and, for each, the two methods its instances
    answer with. *)

Inductive driver_class :=
| VolumeDriverClass
| ISCSIDriverClass
| FakeISCSIDriverClass
| FibreChannelDriverClass.

Definition methods_of (configuration : Configuration) (CONF : GlobalConf)
           (env : Collaborators) (cls : driver_class) : Methods :=
  match cls with
  | VolumeDriverClass =>
      {| method_initialize_connection := VolumeDriver.initialize_connection;
         method_terminate_connection := VolumeDriver.terminate_connection |}
  | ISCSIDriverClass =>
      {| method_initialize_connection :=
           ISCSIDriver.initialize_connection configuration CONF env;
         method_terminate_connection := ISCSIDriver.terminate_connection |}
  | FakeISCSIDriverClass =>
      {| method_initialize_connection := FakeISCSIDriver.initialize_connection;
         method_terminate_connection := FakeISCSIDriver.terminate_connection |}
  | FibreChannelDriverClass =>
      {| method_initialize_connection := FibreChannelDriver.initialize_connection;
         method_terminate_connection := VolumeDriver.terminate_connection |}
  end.

(** ** Vocabulary of the protocol statements *)

Section Protocol.

Variable configuration : Configuration.
Variable env : Collaborators.
Variable self : Methods.

(** The calls [_attach_volume] makes after [initialize_connection]. *)
Definition attach_calls (conn : connection_info) (c : connector) (path : pyval)
  : trace :=
  [Factory (driver_volume_type conn) (use_multipath_for_image_xfer configuration);
   ConnectVolume c (data conn);
   CheckValidDevice c path]%list.

(** The trace at which an image copy that started at [t] begins to attach:
    it has logged its name and asked for the connector properties. *)
Definition before_attach (format : string) (v : volume) (t : trace) : trace :=
  ((t ++ [Log DEBUG format [VStr (name v)]]) ++ [GetConnectorProperties])%list.

(** The [finally] block of the image copies run from [t2], when the body of
    the [try] produced [body]. *)
Definition after_teardown {A} (body : result A) (v : volume)
           (properties : pydict) (conn : connection_info) (device : pydict)
           (c : connector) (t2 : trace) : result A * trace :=
  let t3 := (t2 ++ [DisconnectVolume c (data conn) device])%list in
  match disconnect_volume_outcome env c (data conn) device with
  | Err e => (Err e, t3)
  | Ok _ =>
      match method_terminate_connection self v properties
              (t3 ++ [TerminateConnection v properties])%list with
      | (Ok _, t4) => (body, t4)
      | (Err e, t4) => (Err e, t4)
      end
  end.

End Protocol.

(** ** Vocabulary of the retry statements *)

Definition is_sleep (ev : event) : bool :=
  match ev with Sleep _ => true | _ => false end.

(** What a failed attempt leaves in the trace when it is retried: the call,
    the message with the number of the try and the pause. *)
Definition retried_attempt (command : list string) (kwargs : pydict) (tries : Z)
  : trace :=
  [Execute command kwargs;
   Log EXCEPTION "Recovering from a failed execute.  Try number %s" [VInt tries];
   Sleep (tries ^ 2)]%list.

(** [k] retried attempts in a row, the first of them being try [tries + 1]. *)
Fixpoint retried_attempts (command : list string) (kwargs : pydict) (tries : Z)
         (k : nat) : trace :=
  match k with
  | O => []
  | S k' =>
      (retried_attempt command kwargs (tries + 1)
       ++ retried_attempts command kwargs (tries + 1) k')%list
  end.

(** The calls an attach may make: messages, the shell, the two
    [initialize_connection]s and the three calls on Brick's connector. *)
Definition is_attach_call (ev : event) : bool :=
  match ev with
  | Log _ _ _ | Execute _ _ | InitializeConnection _ _
  | TgtadmInitializeConnection _ _ | Factory _ _ | ConnectVolume _ _
  | CheckValidDevice _ _ => true
  | _ => false
  end.

(** A computation that, whatever it returns or raises, only appends to the
    trace, and only events that [allowed] accepts. *)
Definition only_adds {A} (allowed : event -> bool) (c : M A) : Prop :=
  forall t : trace,
    exists suffix : trace,
      snd (c t) = (t ++ suffix)%list /\ List.forallb allowed suffix = true.

(** What [_try_execute] makes of the outcome of its last attempt. *)
Definition last_attempt (outcome : result (string * string)) : result bool :=
  match outcome with
  | Ok _ => Ok true
  | Err ex => Err ex
  end.

(** The outcome on which the loop stops at the try after [tries]: a success,
    an exception of another kind, or a [ProcessExecutionError] that is the
    last one allowed or is not recoverable. *)
Definition ends_loop (configuration : Configuration) (items : list string)
           (tries : Z) (outcome : result (string * string)) : Prop :=
  match outcome with
  | Err (ProcessExecutionError stderr) =>
      num_shell_tries configuration <= tries + 1
      \/ VolumeDriver._is_non_recoverable stderr items = true
  | _ => True
  end.

(** ** A volume, a configuration and collaborators to run the driver on *)

Module Scenario.

Definition configuration : Configuration :=
  {| num_shell_tries := 3;
     use_multipath_for_image_xfer := false;
     iscsi_ip_address := "10.0.0.5";
     volume_driver := "cinder.volume.drivers.lvm.LVMISCSIDriver";
     iscsi_helper := "tgtadm" |}.

Definition CONF : GlobalConf := {| CONF_iscsi_helper := "tgtadm" |}.

Definition stored_volume (location : string) (auth : option string) : volume :=
  {| name := "volume-00000001";
     host := "storage1";
     id := VInt 1;
     provider_location := Some location;
     provider_auth := auth;
     provider_geometry := None |}.

(** A volume whose target has to be discovered. *)
Definition unlocated_volume : volume :=
  {| name := "volume-00000001";
     host := "storage1";
     id := VInt 1;
     provider_location := None;
     provider_auth := None;
     provider_geometry := None |}.

Definition host_properties : pydict :=
  {[ "initiator" := VStr "iqn.1993-08.org.debian:01:host" ]}.

Definition device : pydict :=
  <["path" := VStr "/dev/sdb"]> {[ "type" := VStr "block" ]}.

(** Collaborators that connect every volume to [/dev/sdb]; the shell, the
    validity of the device, the copy and the disconnection are given. *)
Definition collaborators (shell : nat -> result (string * string))
           (device_is_valid : bool) (copy disconnect : result unit)
  : Collaborators :=
  {| execute_outcome := fun n _ _ => shell n;
     get_connector_properties_outcome := Ok host_properties;
     tgtadm_initialize_connection_outcome := None;
     factory_outcome := fun protocol use_multipath =>
       Ok {| connector_protocol := protocol;
             connector_multipath := use_multipath |};
     connect_volume_outcome := fun _ _ => Ok device;
     check_valid_device_outcome := fun _ _ => Ok device_is_valid;
     disconnect_volume_outcome := fun _ _ _ => disconnect;
     fetch_to_raw_outcome := fun _ _ => copy;
     upload_volume_outcome := fun _ _ => copy |}.

(** A shell that fails [failures] times with [stderr] and then prints
    [out]. *)
Definition flaky_shell (failures : nat) (stderr out : string) (n : nat)
  : result (string * string) :=
  if Nat.ltb n failures then Err (ProcessExecutionError stderr)
  else Ok (out, EmptyString).

Definition steady_shell : nat -> result (string * string) :=
  flaky_shell 0 EmptyString EmptyString.

Definition iscsi_driver (env : Collaborators) : Methods :=
  methods_of configuration CONF env ISCSIDriverClass.

Definition located_volume : volume :=
  stored_volume "10.0.0.5:3260,1 iqn.example:target" None.

(** What [initialize_connection] answers for [located_volume]. *)
Definition connection : connection_info :=
  {| driver_volume_type := "iscsi";
     data := <["volume_id" := VInt 1]>
               (<["target_lun" := VInt 1]>
                  (<["target_iqn" := VStr "iqn.example:target"]>
                     (<["target_portal" := VStr "10.0.0.5:3260"]>
                        {[ "target_discovered" := VBool false ]}))) |}.

Definition iscsi_connector : connector :=
  {| connector_protocol := "iscsi"; connector_multipath := false |}.

(** Attaching when the connected device does not validate. *)
Definition invalid_device : Collaborators :=
  collaborators steady_shell false (Ok tt) (Ok tt).

Definition attach_invalid_device
  : result (connection_info * pydict * connector) * trace :=
  VolumeDriver._attach_volume configuration invalid_device
                              (iscsi_driver invalid_device)
                              VNone located_volume host_properties [].

(** Copying an image when the copy works and [disconnect_volume] raises. *)
Definition failing_disconnect : Collaborators :=
  collaborators steady_shell true (Ok tt) (Err (OtherError "disconnect failed")).

Definition copy_then_failing_disconnect : result unit * trace :=
  VolumeDriver.copy_image_to_volume configuration failing_disconnect
                                    (iscsi_driver failing_disconnect)
                                    VNone located_volume VNone "image-1" [].

(** Copying an image when the copy and [disconnect_volume] both raise. *)
Definition failing_copy_and_disconnect : Collaborators :=
  collaborators steady_shell true (Err (OtherError "copy failed"))
                (Err (OtherError "disconnect failed")).

Definition failing_copy_then_failing_disconnect : result unit * trace :=
  VolumeDriver.copy_image_to_volume configuration failing_copy_and_disconnect
                                    (iscsi_driver failing_copy_and_disconnect)
                                    VNone located_volume VNone "image-1" [].

(** A volume whose [provider_auth] lacks the secret. *)
Definition short_auth_volume : volume :=
  stored_volume "10.0.0.5:3260,1 iqn.example:target" (Some "CHAP user").

Definition resolve_short_auth : result pydict * trace :=
  ISCSIDriver._get_iscsi_properties configuration invalid_device
                                    short_auth_volume [].

(** A discovery that lists the export of another volume only. *)
Definition other_export : string :=
  "10.0.0.5:3260,1 iqn.2010-10.org.openstack:volume-00000002".

Definition discovers_other_export : Collaborators :=
  collaborators (flaky_shell 0 EmptyString other_export) true (Ok tt) (Ok tt).

(** A shell that is busy twice and then works. *)
Definition busy_twice : Collaborators :=
  collaborators (flaky_shell 2 "device is busy" EmptyString)
                true (Ok tt) (Ok tt).

(** A shell that does not find the device. *)
Definition no_such_device : Collaborators :=
  collaborators (flaky_shell 1 "lvremove: No such device" EmptyString)
                true (Ok tt) (Ok tt).

(** Collaborators with which the copy fails and everything else works. *)
Definition failing_copy : Collaborators :=
  collaborators steady_shell true (Err (OtherError "copy failed")) (Ok tt).

(** The export of [unlocated_volume], and a discovery that lists it after
    that of another volume. *)
Definition own_export : string :=
  "10.0.0.5:3260,1 iqn.2010-10.org.openstack:volume-00000001".

Definition discovers_own_export : Collaborators :=
  collaborators
    (flaky_shell 0 EmptyString
                 (other_export +:+ String PyStr.LF own_export))
    true (Ok tt) (Ok tt).

(** A discovery that cannot reach the target. *)
Definition failing_discovery : Collaborators :=
  collaborators
    (fun _ => Err (ProcessExecutionError "iscsiadm: cannot make connection"))
    true (Ok tt) (Ok tt).

(** A volume with CHAP credentials and LUN 7. *)
Definition chap_volume : volume :=
  stored_volume "10.0.0.5:3260,1 iqn.example:target 7"
                (Some "CHAP user secret").

(** A volume whose [provider_geometry] lacks the logical block size. *)
Definition short_geometry_volume : volume :=
  {| name := "volume-00000001";
     host := "storage1";
     id := VInt 1;
     provider_location := Some "10.0.0.5:3260,1 iqn.example:target";
     provider_auth := None;
     provider_geometry := Some "4096" |}.

(** A volume with both block sizes. *)
Definition geometry_volume : volume :=
  {| name := "volume-00000001";
     host := "storage1";
     id := VInt 1;
     provider_location := Some "10.0.0.5:3260,1 iqn.example:target";
     provider_auth := None;
     provider_geometry := Some "4096 512" |}.

(** A volume whose [provider_location] has no target name. *)
Definition portal_only_volume : volume :=
  stored_volume "10.0.0.5:3260,1" None.

(** The initiator file as open-iscsi writes it. *)
Definition initiator_file : string :=
  "## DO NOT EDIT OR REMOVE THIS FILE!"
    +:+ String PyStr.LF
          ("InitiatorName=iqn.1993-08.org.debian:01:host "
             +:+ String PyStr.LF EmptyString).

Definition reads_initiator_file (path : string) : result string :=
  Ok initiator_file.

(** A shell that is busy every time. *)
Definition always_busy : Collaborators :=
  collaborators (flaky_shell 5 "device is busy" EmptyString)
                true (Ok tt) (Ok tt).

(** The configuration with another number of tries. *)
Definition with_tries (tries : Z) : Configuration :=
  {| num_shell_tries := tries;
     use_multipath_for_image_xfer := false;
     iscsi_ip_address := "10.0.0.5";
     volume_driver := "cinder.volume.drivers.lvm.LVMISCSIDriver";
     iscsi_helper := "tgtadm" |}.

(** A shell that is busy once and then cannot be started. *)
Definition busy_then_broken : Collaborators :=
  collaborators (fun n => if Nat.eqb n 0
                          then Err (ProcessExecutionError "device is busy")
                          else Err (OtherError "OSError"))
                true (Ok tt) (Ok tt).

(** A shell that is busy once and then does not find the device. *)
Definition busy_then_gone : Collaborators :=
  collaborators (fun n => if Nat.eqb n 0
                          then Err (ProcessExecutionError "device is busy")
                          else Err (ProcessExecutionError "No such device"))
                true (Ok tt) (Ok tt).

End Scenario.

(** * Theorems *)

Open Scope list_scope.

(** ** The call trace *)

Lemma occurrences_app (p : event -> bool) (t1 t2 : trace) :
  occurrences p (t1 ++ t2) = (occurrences p t1 + occurrences p t2)%nat.
Proof.
  unfold occurrences. now rewrite List.filter_app, List.length_app.
Qed.

Lemma executions_snoc (t : trace) (ev : event) :
  executions (t ++ [ev]) =
  (executions t + if is_execute ev then 1 else 0)%nat.
Proof.
  unfold executions. rewrite occurrences_app. f_equal.
  unfold occurrences. simpl. now destruct (is_execute ev).
Qed.

(** ** The retrying executor *)

Section RetryingExecutor.

Variable configuration : Configuration.
Variable env : Collaborators.

Local Abbreviation _execute := (VolumeDriver._execute env).
Local Abbreviation _is_non_recoverable := VolumeDriver._is_non_recoverable.
Local Abbreviation _try_execute_loop :=
  (VolumeDriver._try_execute_loop configuration env).
Local Abbreviation _try_execute := (VolumeDriver._try_execute configuration env).

Lemma execute_run command kwargs (t : trace) :
  _execute command kwargs t =
  (execute_outcome env (executions t) command kwargs,
   t ++ [Execute command kwargs]).
Proof. reflexivity. Qed.

(** One iteration of the loop, after the shell has answered. *)
Lemma try_execute_loop_step fuel tries command kwargs items (t : trace) :
  _try_execute_loop (S fuel) tries command kwargs items t =
  let t1 := t ++ [Execute command kwargs] in
  match execute_outcome env (executions t) command kwargs with
  | Ok _ => Some (Ok true, t1)
  | Err (ProcessExecutionError stderr) =>
      if (tries + 1 >=? num_shell_tries configuration)
         || _is_non_recoverable stderr items
      then Some (Err (ProcessExecutionError stderr), t1)
      else _try_execute_loop
             fuel (tries + 1) command kwargs items
             (t1 ++ [Log EXCEPTION
                         "Recovering from a failed execute.  Try number %s"
                         [VInt (tries + 1)]]
                 ++ [Sleep ((tries + 1) ^ 2)])
  | Err ex => Some (Err ex, t1)
  end.
Proof.
  cbn [VolumeDriver._try_execute_loop]. rewrite execute_run.
  destruct (execute_outcome env (executions t) command kwargs) as [out|[]];
    try reflexivity.
  cbv zeta.
  destruct (_ || _); [reflexivity|].
  unfold bind, emit, call. now rewrite <- app_assoc.
Qed.

Lemma is_non_recoverable_true err items :
  _is_non_recoverable err items = true <->
  exists item, In item items /\ PyStr.contains item err = true.
Proof.
  induction items as [|item rest IH]; simpl.
  - split; [discriminate | intros (? & [] & _)].
  - destruct (PyStr.contains item err) eqn:Hc.
    + split; [eauto | reflexivity].
    + rewrite IH. split.
      * intros (item' & Hin & Hc'). eauto.
      * intros (item' & [-> | Hin] & Hc'); [congruence | eauto].
Qed.

Lemma is_non_recoverable_false err items :
  (forall item, In item items -> PyStr.contains item err = false) ->
  _is_non_recoverable err items = false.
Proof.
  intros Hnone. destruct (_is_non_recoverable err items) eqn:Hr; [|reflexivity].
  apply is_non_recoverable_true in Hr as (item & Hin & Hc).
  rewrite (Hnone item Hin) in Hc. discriminate.
Qed.

(** One more iteration than there are failures is enough fuel. *)
Lemma try_execute_loop_recovers command kwargs items (k : nat) :
  forall (fuel : nat) (tries : Z) (t : trace) (stderr : nat -> string),
    (k < fuel)%nat ->
    tries + Z.of_nat k < num_shell_tries configuration ->
    (forall i, (i < k)%nat ->
       execute_outcome env (executions t + i) command kwargs
       = Err (ProcessExecutionError (stderr i))) ->
    (forall i item, (i < k)%nat -> In item items ->
       PyStr.contains item (stderr i) = false) ->
    (exists out, execute_outcome env (executions t + k) command kwargs = Ok out) ->
    exists t',
      _try_execute_loop fuel tries command kwargs items t = Some (Ok true, t')
      /\ executions t' = (executions t + k + 1)%nat.
Proof.
  induction k as [|k IH]; intros fuel tries t stderr Hfuel Htries Hfail Hclean [out Hok].
  - destruct fuel as [|fuel]; [lia|].
    rewrite try_execute_loop_step. rewrite Nat.add_0_r in Hok. rewrite Hok.
    eexists; split; [reflexivity|]. rewrite executions_snoc. simpl. lia.
  - destruct fuel as [|fuel]; [lia|].
    rewrite try_execute_loop_step.
    pose proof (Hfail 0%nat ltac:(lia)) as H0. rewrite Nat.add_0_r in H0.
    rewrite H0.
    rewrite (is_non_recoverable_false (stderr 0%nat) items)
      by (intros item Hin; apply (Hclean 0%nat item); [lia | exact Hin]).
    destruct (Z.geb_spec (tries + 1) (num_shell_tries configuration)) as [Hge|Hlt];
      [lia|]. cbv zeta. cbn [orb].
    set (t2 := (t ++ [Execute command kwargs]) ++ _).
    assert (Hex : executions t2 = (executions t + 1)%nat).
    { unfold t2. rewrite app_assoc, !executions_snoc. simpl. lia. }
    destruct (IH fuel (tries + 1) t2 (fun i => stderr (S i))) as (t' & Hrun & Hcount).
    + lia.
    + lia.
    + intros i Hi. rewrite Hex.
      replace (executions t + 1 + i)%nat with (executions t + S i)%nat by lia.
      apply Hfail. lia.
    + intros i item Hi Hin. apply (Hclean (S i) item); [lia | exact Hin].
    + exists out. rewrite Hex.
      now replace (executions t + 1 + k)%nat with (executions t + S k)%nat by lia.
    + exists t'. split; [exact Hrun|]. rewrite Hcount, Hex. lia.
Qed.

(** The loop always leaves within the fuel [_try_execute] gives it: the
    function is total. *)
Lemma try_execute_loop_total command kwargs items (fuel : nat) :
  forall (tries : Z) (t : trace),
    Z.max 1 (num_shell_tries configuration - tries) <= Z.of_nat fuel ->
    exists r t', _try_execute_loop fuel tries command kwargs items t = Some (r, t').
Proof.
  induction fuel as [|fuel IH]; intros tries t Hfuel; [lia|].
  rewrite try_execute_loop_step. cbv zeta.
  destruct (execute_outcome env (executions t) command kwargs) as [out|e].
  - eauto.
  - destruct e; eauto.
    destruct (Z.geb_spec (tries + 1) (num_shell_tries configuration)) as [Hge|Hlt];
      cbn [orb]; [eauto|].
    destruct (_is_non_recoverable stderr items); [eauto|].
    apply IH. lia.
Qed.

Theorem try_execute_total command kwargs items (t : trace) :
  exists r t', _try_execute command kwargs items t = Some (r, t').
Proof.
  apply try_execute_loop_total. lia.
Qed.

(** C4.  When the command fails [k] times, with [k] below
    [num_shell_tries] and no non-recoverable pattern in any of those error
    texts, and then succeeds, [_try_execute] returns [True] and has invoked
    the command exactly [k + 1] times. *)
Theorem try_execute_recovers_after_failures
        command kwargs no_retry_list (t : trace) (k : nat) (stderr : nat -> string) :
  Z.of_nat k < num_shell_tries configuration ->
  (forall i, (i < k)%nat ->
     execute_outcome env (executions t + i) command kwargs
     = Err (ProcessExecutionError (stderr i))) ->
  (forall i item, (i < k)%nat -> In item no_retry_list ->
     PyStr.contains item (stderr i) = false) ->
  (exists out, execute_outcome env (executions t + k) command kwargs = Ok out) ->
  exists t',
    _try_execute command kwargs no_retry_list t = Some (Ok true, t')
    /\ executions t' = (executions t + (k + 1))%nat.
Proof.
  intros Hk Hfail Hclean Hok.
  destruct (try_execute_loop_recovers command kwargs no_retry_list k
              (Z.to_nat (Z.max 1 (num_shell_tries configuration))) 0 t stderr)
    as (t' & Hrun & Hcount); try assumption; try lia.
  exists t'. split; [exact Hrun | lia].
Qed.

(** C5.  When the first execution fails and its error text contains one of
    the non-recoverable patterns, [_try_execute] raises that
    [ProcessExecutionError] after exactly one invocation. *)
Theorem try_execute_non_recoverable_single_attempt
        command kwargs no_retry_list (t : trace) (stderr item : string) :
  execute_outcome env (executions t) command kwargs
  = Err (ProcessExecutionError stderr) ->
  In item no_retry_list ->
  PyStr.contains item stderr = true ->
  _try_execute command kwargs no_retry_list t
  = Some (Err (ProcessExecutionError stderr), t ++ [Execute command kwargs])
  /\ executions (t ++ [Execute command kwargs]) = (executions t + 1)%nat.
Proof.
  intros Hfail Hin Hmatch. split.
  - unfold VolumeDriver._try_execute.
    destruct (Z.to_nat (Z.max 1 (num_shell_tries configuration))) as [|fuel] eqn:Hfuel;
      [lia|].
    rewrite try_execute_loop_step, Hfail.
    assert (Hnr : _is_non_recoverable stderr no_retry_list = true)
      by (apply is_non_recoverable_true; eauto).
    rewrite Hnr, orb_true_r. reflexivity.
  - rewrite executions_snoc. reflexivity.
Qed.

End RetryingExecutor.

(** ** The attach/detach protocol *)

Ltac unfold_eff :=
  repeat (progress unfold bind, call, emit, ret, raise, getitem, try_finally in * );
  cbv beta iota zeta.

Section AttachProtocol.

Variable configuration : Configuration.
Variable env : Collaborators.
Variable self : Methods.

Local Abbreviation self_initialize_connection :=
  (VolumeDriver.self_initialize_connection self).
Local Abbreviation _attach_volume :=
  (VolumeDriver._attach_volume configuration env self).
Local Abbreviation copy_image_to_volume :=
  (VolumeDriver.copy_image_to_volume configuration env self).
Local Abbreviation copy_volume_to_image :=
  (VolumeDriver.copy_volume_to_image configuration env self).
Local Abbreviation use_multipath :=
  (use_multipath_for_image_xfer configuration).

(** What a successful [_attach_volume] has done. *)
Lemma attach_volume_success context v properties (t t1 : trace) conn device c :
  _attach_volume context v properties t = (Ok (conn, device, c), t1) ->
  exists (t0 : trace) (path : pyval),
    self_initialize_connection v properties t = (Ok conn, t0)
    /\ factory_outcome env (driver_volume_type conn) use_multipath = Ok c
    /\ connect_volume_outcome env c (data conn) = Ok device
    /\ device !! "path" = Some path
    /\ check_valid_device_outcome env c path = Ok true
    /\ t1 = t0 ++ attach_calls configuration conn c path.
Proof.
  unfold VolumeDriver._attach_volume. unfold_eff.
  destruct (self_initialize_connection v properties t) as [[conn'|e] t0] eqn:Hinit;
    [|discriminate].
  destruct (factory_outcome env (driver_volume_type conn') use_multipath)
    as [c'|e] eqn:Hfactory; [|discriminate].
  destruct (connect_volume_outcome env c' (data conn')) as [device'|e] eqn:Hconnect;
    [|discriminate].
  destruct (device' !! "path") as [path|] eqn:Hpath; [|discriminate].
  unfold_eff.
  destruct (check_valid_device_outcome env c' path) as [[|]|e] eqn:Hvalid;
    simpl; try discriminate.
  intros Hrun. inversion Hrun; subst. exists t0, path.
  repeat split; try assumption.
  unfold attach_calls. now rewrite <- !app_assoc.
Qed.

(** [_attach_volume] when the connector's device does not validate. *)
Lemma attach_volume_invalid context v properties (t t0 : trace) conn c device path :
  self_initialize_connection v properties t = (Ok conn, t0) ->
  factory_outcome env (driver_volume_type conn) use_multipath = Ok c ->
  connect_volume_outcome env c (data conn) = Ok device ->
  device !! "path" = Some path ->
  check_valid_device_outcome env c path = Ok false ->
  _attach_volume context v properties t =
  (Err (DeviceUnavailable
          path ("Unable to access the backend storage via the path "
                  +:+ py_str path +:+ ".")),
   t0 ++ attach_calls configuration conn c path).
Proof.
  intros Hinit Hfactory Hconnect Hpath Hvalid.
  unfold VolumeDriver._attach_volume. unfold_eff.
  rewrite Hinit, Hfactory, Hconnect, Hpath, Hvalid. simpl.
  unfold attach_calls. now rewrite <- !app_assoc.
Qed.

Lemma copy_image_to_volume_attached
      context v image_service image_id (t t1 : trace)
      properties conn device c path :
  get_connector_properties_outcome env = Ok properties ->
  _attach_volume context v properties
                 (before_attach "copy_image_to_volume %s." v t)
  = (Ok (conn, device, c), t1) ->
  device !! "path" = Some path ->
  copy_image_to_volume context v image_service image_id t =
  after_teardown env self (fetch_to_raw_outcome env image_id path)
                 v properties conn device c
                 (t1 ++ [FetchToRaw image_id path]).
Proof.
  intros Hprops Hattach Hpath.
  unfold VolumeDriver.copy_image_to_volume, after_teardown, before_attach in *.
  unfold VolumeDriver._detach_volume, VolumeDriver.self_terminate_connection.
  unfold_eff. rewrite Hprops, Hattach, Hpath.
  destruct (disconnect_volume_outcome env c (data conn) device); [|reflexivity].
  destruct (method_terminate_connection self v properties _) as [[u|e] t4]; reflexivity.
Qed.

Lemma copy_volume_to_image_attached
      context v image_service image_meta (t t1 : trace)
      properties conn device c path :
  get_connector_properties_outcome env = Ok properties ->
  _attach_volume context v properties
                 (before_attach "copy_volume_to_image %s." v t)
  = (Ok (conn, device, c), t1) ->
  device !! "path" = Some path ->
  copy_volume_to_image context v image_service image_meta t =
  after_teardown env self (upload_volume_outcome env image_meta path)
                 v properties conn device c
                 (t1 ++ [UploadVolume image_meta path]).
Proof.
  intros Hprops Hattach Hpath.
  unfold VolumeDriver.copy_volume_to_image, after_teardown, before_attach in *.
  unfold VolumeDriver._detach_volume, VolumeDriver.self_terminate_connection.
  unfold_eff. rewrite Hprops, Hattach, Hpath.
  destruct (disconnect_volume_outcome env c (data conn) device); [|reflexivity].
  destruct (method_terminate_connection self v properties _) as [[u|e] t4]; reflexivity.
Qed.

(** A failed attach is all [copy_image_to_volume] does: the [try] has not
    been entered. *)
Lemma copy_image_to_volume_unattached
      context v image_service image_id (t t1 : trace) properties e :
  get_connector_properties_outcome env = Ok properties ->
  _attach_volume context v properties
                 (before_attach "copy_image_to_volume %s." v t)
  = (Err e, t1) ->
  copy_image_to_volume context v image_service image_id t = (Err e, t1).
Proof.
  intros Hprops Hattach.
  unfold VolumeDriver.copy_image_to_volume, before_attach in *.
  unfold_eff. now rewrite Hprops, Hattach.
Qed.

End AttachProtocol.

(** The classes of the file leave the trace alone in [terminate_connection]. *)
Lemma terminate_connection_silent configuration CONF env cls v properties (t : trace) :
  exists r,
    method_terminate_connection (methods_of configuration CONF env cls)
                                v properties t = (r, t).
Proof. destruct cls; eexists; reflexivity. Qed.

(** C1, as the code has it.  When [connect_volume] has returned a device and
    [check_valid_device] answers [False], [_attach_volume] raises
    [DeviceUnavailable] for the device path, which its reason spells out,
    and the calls it has made are
    those of [initialize_connection] followed by the connector factory,
    [connect_volume] and [check_valid_device]: [disconnect_volume] is not
    among them. *)
Theorem attach_volume_invalid_device_is_not_disconnected
        configuration env self context v properties (t t0 : trace)
        conn c device path :
  VolumeDriver.self_initialize_connection self v properties t = (Ok conn, t0) ->
  factory_outcome env (driver_volume_type conn)
                  (use_multipath_for_image_xfer configuration) = Ok c ->
  connect_volume_outcome env c (data conn) = Ok device ->
  device !! "path" = Some path ->
  check_valid_device_outcome env c path = Ok false ->
  VolumeDriver._attach_volume configuration env self context v properties t =
  (Err (DeviceUnavailable
          path ("Unable to access the backend storage via the path "
                  +:+ py_str path +:+ ".")),
   t0 ++ [Factory (driver_volume_type conn)
                  (use_multipath_for_image_xfer configuration);
          ConnectVolume c (data conn);
          CheckValidDevice c path])
  /\ occurrences is_disconnect (attach_calls configuration conn c path) = 0%nat.
Proof.
  intros Hinit Hfactory Hconnect Hpath Hvalid. split.
  - eapply attach_volume_invalid; eassumption.
  - reflexivity.
Qed.

Lemma attach_volume_invalid_device_is_not_disconnected_witness :
  Scenario.attach_invalid_device =
  (Err (DeviceUnavailable
          (VStr "/dev/sdb")
          "Unable to access the backend storage via the path /dev/sdb."),
   [InitializeConnection Scenario.located_volume Scenario.host_properties;
    Factory "iscsi" false;
    ConnectVolume Scenario.iscsi_connector (data Scenario.connection);
    CheckValidDevice Scenario.iscsi_connector (VStr "/dev/sdb")]).
Proof.
  apply (attach_volume_invalid_device_is_not_disconnected
           Scenario.configuration Scenario.invalid_device
           (Scenario.iscsi_driver Scenario.invalid_device)
           VNone Scenario.located_volume Scenario.host_properties []
           [InitializeConnection Scenario.located_volume Scenario.host_properties]
           Scenario.connection Scenario.iscsi_connector Scenario.device
           (VStr "/dev/sdb"));
    reflexivity.
Defined.

(** C1 does not hold: the device of [Scenario.invalid_device] is connected
    and found invalid, [DeviceUnavailable] reaches the caller and
    [disconnect_volume] has not been called. *)
Lemma attach_volume_invalid_device_leaves_connection :
  fst Scenario.attach_invalid_device =
  Err (DeviceUnavailable
         (VStr "/dev/sdb")
         "Unable to access the backend storage via the path /dev/sdb.")
  /\ In (ConnectVolume Scenario.iscsi_connector (data Scenario.connection))
        (snd Scenario.attach_invalid_device)
  /\ occurrences is_disconnect (snd Scenario.attach_invalid_device) = 0%nat.
Proof.
  vm_compute. repeat split. right. right. left. reflexivity.
Qed.

(** C2, as the code has it.  After a successful attach, for each class of
    the file and whether the copy returns or raises, [copy_image_to_volume]
    copies to [device['path']] of the device [connect_volume] returned and
    then calls [disconnect_volume] once; [terminate_connection] follows,
    once, when [disconnect_volume] returns, and is not called when it
    raises. *)
Theorem copy_image_to_volume_tears_down_in_order
        configuration CONF env cls context v image_service image_id
        (t t1 : trace) properties conn device c :
  get_connector_properties_outcome env = Ok properties ->
  VolumeDriver._attach_volume
    configuration env (methods_of configuration CONF env cls)
    context v properties (before_attach "copy_image_to_volume %s." v t)
  = (Ok (conn, device, c), t1) ->
  exists path,
    connect_volume_outcome env c (data conn) = Ok device
    /\ device !! "path" = Some path
    /\ snd (VolumeDriver.copy_image_to_volume
              configuration env (methods_of configuration CONF env cls)
              context v image_service image_id t)
       = t1 ++ [FetchToRaw image_id path; DisconnectVolume c (data conn) device]
            ++ match disconnect_volume_outcome env c (data conn) device with
               | Ok _ => [TerminateConnection v properties]
               | Err _ => []
               end.
Proof.
  intros Hprops Hattach.
  destruct (attach_volume_success _ _ _ _ _ _ _ _ _ _ _ Hattach)
    as (t0 & path & _ & _ & Hconnect & Hpath & _ & _).
  exists path. split; [exact Hconnect|]. split; [exact Hpath|].
  rewrite (copy_image_to_volume_attached _ _ _ _ _ _ _ _ _ _ _ _ _ _
             Hprops Hattach Hpath).
  unfold after_teardown.
  destruct (disconnect_volume_outcome env c (data conn) device) as [[]|e]; cbn [snd].
  - destruct (terminate_connection_silent
                configuration CONF env cls v properties
                (((t1 ++ [FetchToRaw image_id path])
                    ++ [DisconnectVolume c (data conn) device])
                   ++ [TerminateConnection v properties])) as [r ->].
    destruct r; cbn [snd]; now rewrite <- !app_assoc.
  - now rewrite <- !app_assoc.
Qed.

Lemma copy_image_to_volume_tears_down_in_order_witness :
  exists path,
    connect_volume_outcome Scenario.failing_copy_and_disconnect
                           Scenario.iscsi_connector (data Scenario.connection)
    = Ok Scenario.device
    /\ Scenario.device !! "path" = Some path
    /\ snd Scenario.failing_copy_then_failing_disconnect
       = before_attach "copy_image_to_volume %s." Scenario.located_volume []
           ++ [InitializeConnection Scenario.located_volume
                                    Scenario.host_properties]
           ++ attach_calls Scenario.configuration Scenario.connection
                           Scenario.iscsi_connector (VStr "/dev/sdb")
           ++ [FetchToRaw "image-1" path;
               DisconnectVolume Scenario.iscsi_connector
                                (data Scenario.connection) Scenario.device].
Proof.
  destruct (copy_image_to_volume_tears_down_in_order
              Scenario.configuration Scenario.CONF
              Scenario.failing_copy_and_disconnect ISCSIDriverClass
              VNone Scenario.located_volume VNone "image-1" []
              (before_attach "copy_image_to_volume %s." Scenario.located_volume []
                 ++ [InitializeConnection Scenario.located_volume
                                          Scenario.host_properties]
                 ++ attach_calls Scenario.configuration Scenario.connection
                                 Scenario.iscsi_connector (VStr "/dev/sdb"))
              Scenario.host_properties Scenario.connection Scenario.device
              Scenario.iscsi_connector)
    as (path & Hconnect & Hpath & Htrace).
  - reflexivity.
  - reflexivity.
  - exists path. split; [exact Hconnect|]. split; [exact Hpath|].
    exact Htrace.
Defined.

(** C2 does not hold: in [Scenario.copy_then_failing_disconnect] the attach
    and the copy succeed, [disconnect_volume] raises and
    [terminate_connection] is not called at all. *)
Lemma copy_image_to_volume_skips_terminate_connection :
  In (FetchToRaw "image-1" (VStr "/dev/sdb"))
     (snd Scenario.copy_then_failing_disconnect)
  /\ occurrences is_disconnect (snd Scenario.copy_then_failing_disconnect) = 1%nat
  /\ occurrences is_terminate (snd Scenario.copy_then_failing_disconnect) = 0%nat
  /\ fst Scenario.copy_then_failing_disconnect
     = Err (OtherError "disconnect failed").
Proof.
  vm_compute. repeat split. do 6 right. left. reflexivity.
Qed.

(** C3, as the code has it.  When the copy raises [e_copy] inside
    [copy_image_to_volume] or inside [copy_volume_to_image], each taken on
    its own, an exception raised by [disconnect_volume] or by
    [terminate_connection] in the [finally] block is the one the caller
    gets, and nothing is logged; when [disconnect_volume] raises,
    [terminate_connection] is not called.  [e_copy] reaches the caller only
    when both calls return. *)
Theorem teardown_failure_replaces_copy_failure
        configuration env self context v image_service properties :
  get_connector_properties_outcome env = Ok properties ->
  (forall image_id (t t1 : trace) conn device c path e_copy,
     VolumeDriver._attach_volume
       configuration env self context v properties
       (before_attach "copy_image_to_volume %s." v t)
     = (Ok (conn, device, c), t1) ->
     device !! "path" = Some path ->
     fetch_to_raw_outcome env image_id path = Err e_copy ->
     VolumeDriver.copy_image_to_volume
       configuration env self context v image_service image_id t
     = match disconnect_volume_outcome env c (data conn) device with
       | Err e_teardown =>
           (Err e_teardown,
            t1 ++ [FetchToRaw image_id path;
                   DisconnectVolume c (data conn) device])
       | Ok _ =>
           match method_terminate_connection
                   self v properties
                   (t1 ++ [FetchToRaw image_id path;
                           DisconnectVolume c (data conn) device;
                           TerminateConnection v properties]) with
           | (Err e_teardown, t') => (Err e_teardown, t')
           | (Ok _, t') => (Err e_copy, t')
           end
       end)
  /\ (forall image_meta (t t1 : trace) conn device c path e_copy,
        VolumeDriver._attach_volume
          configuration env self context v properties
          (before_attach "copy_volume_to_image %s." v t)
        = (Ok (conn, device, c), t1) ->
        device !! "path" = Some path ->
        upload_volume_outcome env image_meta path = Err e_copy ->
        VolumeDriver.copy_volume_to_image
          configuration env self context v image_service image_meta t
        = match disconnect_volume_outcome env c (data conn) device with
          | Err e_teardown =>
              (Err e_teardown,
               t1 ++ [UploadVolume image_meta path;
                      DisconnectVolume c (data conn) device])
          | Ok _ =>
              match method_terminate_connection
                      self v properties
                      (t1 ++ [UploadVolume image_meta path;
                              DisconnectVolume c (data conn) device;
                              TerminateConnection v properties]) with
              | (Err e_teardown, t') => (Err e_teardown, t')
              | (Ok _, t') => (Err e_copy, t')
              end
          end).
Proof.
  intros Hprops. split.
  - intros image_id t t1 conn device c path e_copy Hattach Hpath Hfetch.
    rewrite (copy_image_to_volume_attached _ _ _ _ _ _ _ _ _ _ _ _ _ _
               Hprops Hattach Hpath).
    unfold after_teardown. rewrite Hfetch, <- !app_assoc. cbn [app].
    destruct (disconnect_volume_outcome env c (data conn) device); [|reflexivity].
    destruct (method_terminate_connection _ _ _ _) as [[u|e] t']; reflexivity.
  - intros image_meta t t1 conn device c path e_copy Hattach Hpath Hupload.
    rewrite (copy_volume_to_image_attached _ _ _ _ _ _ _ _ _ _ _ _ _ _
               Hprops Hattach Hpath).
    unfold after_teardown. rewrite Hupload, <- !app_assoc. cbn [app].
    destruct (disconnect_volume_outcome env c (data conn) device); [|reflexivity].
    destruct (method_terminate_connection _ _ _ _) as [[u|e] t']; reflexivity.
Qed.

Lemma teardown_failure_replaces_copy_failure_witness :
  fst Scenario.failing_copy_then_failing_disconnect
  = Err (OtherError "disconnect failed")
  /\ fst (VolumeDriver.copy_volume_to_image
            Scenario.configuration Scenario.failing_copy_and_disconnect
            (Scenario.iscsi_driver Scenario.failing_copy_and_disconnect)
            VNone Scenario.located_volume VNone ∅ [])
     = Err (OtherError "disconnect failed").
Proof.
  destruct (teardown_failure_replaces_copy_failure
              Scenario.configuration Scenario.failing_copy_and_disconnect
              (Scenario.iscsi_driver Scenario.failing_copy_and_disconnect)
              VNone Scenario.located_volume VNone Scenario.host_properties)
    as [Hfetch Hupload]; [reflexivity|].
  split.
  - unfold Scenario.failing_copy_then_failing_disconnect.
    rewrite (Hfetch "image-1" []
               (before_attach "copy_image_to_volume %s."
                              Scenario.located_volume []
                  ++ [InitializeConnection Scenario.located_volume
                                           Scenario.host_properties]
                  ++ attach_calls Scenario.configuration Scenario.connection
                                  Scenario.iscsi_connector (VStr "/dev/sdb"))
               Scenario.connection Scenario.device Scenario.iscsi_connector
               (VStr "/dev/sdb") (OtherError "copy failed"));
      reflexivity.
  - rewrite (Hupload ∅ []
               (before_attach "copy_volume_to_image %s."
                              Scenario.located_volume []
                  ++ [InitializeConnection Scenario.located_volume
                                           Scenario.host_properties]
                  ++ attach_calls Scenario.configuration Scenario.connection
                                  Scenario.iscsi_connector (VStr "/dev/sdb"))
               Scenario.connection Scenario.device Scenario.iscsi_connector
               (VStr "/dev/sdb") (OtherError "copy failed"));
      reflexivity.
Defined.

(** C3 does not hold: in [Scenario.failing_copy_then_failing_disconnect] the
    copy raises, then [disconnect_volume] raises, and the caller gets the
    exception of [disconnect_volume], not that of the copy; the only message
    logged is the one that opens [copy_image_to_volume]. *)
Lemma copy_failure_is_replaced_by_disconnect_failure :
  fst Scenario.failing_copy_then_failing_disconnect
  = Err (OtherError "disconnect failed")
  /\ fst Scenario.failing_copy_then_failing_disconnect
     <> Err (OtherError "copy failed")
  /\ List.filter is_log (snd Scenario.failing_copy_then_failing_disconnect)
     = [Log DEBUG "copy_image_to_volume %s." [VStr "volume-00000001"]].
Proof.
  vm_compute. repeat split. discriminate.
Qed.

(** C10.  [ISCSIDriver.terminate_connection] returns without raising and
    leaves the trace as it was, for every volume and connector; called
    through [self] on an [ISCSIDriver], the terminate step of the teardown
    therefore returns normally, the call itself being all that is
    recorded. *)
Theorem iscsi_terminate_connection_is_a_noop
        configuration CONF env v connector_properties (t : trace) :
  ISCSIDriver.terminate_connection v connector_properties t = (Ok tt, t)
  /\ VolumeDriver.self_terminate_connection
       (methods_of configuration CONF env ISCSIDriverClass)
       v connector_properties t
     = (Ok tt, t ++ [TerminateConnection v connector_properties]).
Proof.
  split; reflexivity.
Qed.

(** ** Connection properties of an iSCSI volume *)

Section Resolver.

Variable configuration : Configuration.
Variable env : Collaborators.

Local Abbreviation _select_location :=
  (ISCSIDriver._select_location configuration env).
Local Abbreviation _set_target_lun :=
  (ISCSIDriver._set_target_lun configuration).
Local Abbreviation _get_iscsi_properties :=
  (ISCSIDriver._get_iscsi_properties configuration env).

Lemma split_on_cons sep s :
  exists field fields, PyStr.split_on sep s = field :: fields.
Proof.
  destruct s as [|c s]; simpl; [eauto|].
  destruct (Ascii.eqb c sep); [eauto|].
  destruct (PyStr.split_on sep s); eauto.
Qed.

Lemma find_none_intro {A} (f : A -> bool) (l : list A) :
  (forall x, In x l -> f x = false) -> List.find f l = None.
Proof.
  induction l as [|x l IH]; intros Hall; [reflexivity|]. simpl.
  rewrite (Hall x) by now left.
  apply IH. intros y Hy. apply Hall. now right.
Qed.

(** When they are both true of the configuration, a missing LUN is 1. *)
Lemma lun_defaults_to_one_iff :
  ISCSIDriver.lun_defaults_to_one configuration = true <->
  (volume_driver configuration = "cinder.volume.drivers.lvm.LVMISCSIDriver"
   \/ volume_driver configuration
      = "cinder.volume.drivers.lvm.ThinLVMVolumeDriver")
  /\ iscsi_helper configuration = "tgtadm".
Proof.
  unfold ISCSIDriver.lun_defaults_to_one.
  rewrite andb_true_iff, orb_true_iff, !String.eqb_eq. reflexivity.
Qed.

(** The [try]/[except] always sets [target_lun] and raises nothing. *)
Lemma set_target_lun_run results properties (t : trace) :
  exists lun,
    _set_target_lun results properties t
    = (Ok (<["target_lun" := VInt lun]> properties), t)
    /\ (results !! 2%nat = None
        \/ (exists field, results !! 2%nat = Some field
                          /\ PyStr.int field = None) ->
        lun = if ISCSIDriver.lun_defaults_to_one configuration then 1 else 0)
    /\ (forall field n, results !! 2%nat = Some field ->
                        PyStr.int field = Some n -> lun = n).
Proof.
  unfold ISCSIDriver._set_target_lun, try_except, index, Eff.int.
  unfold_eff.
  destruct (results !! 2%nat) as [field|] eqn:Hfield.
  - destruct (PyStr.int field) as [n|] eqn:Hint.
    + exists n. split; [reflexivity|]. split.
      * intros [Hnone | (field' & Hsome & Hbad)]; congruence.
      * intros field' n' [= <-] Hn. congruence.
    + exists (if ISCSIDriver.lun_defaults_to_one configuration then 1 else 0).
      split; [simpl; now destruct (ISCSIDriver.lun_defaults_to_one configuration)|].
      split; [reflexivity|]. intros field' n' [= <-] Hn. congruence.
  - exists (if ISCSIDriver.lun_defaults_to_one configuration then 1 else 0).
    split; [simpl; now destruct (ISCSIDriver.lun_defaults_to_one configuration)|].
    split; [reflexivity|]. intros field' n' Hsome. discriminate.
Qed.

Lemma unpack3_mismatch fields (t : trace) :
  length fields <> 3%nat ->
  ISCSIDriver.unpack3 fields t = (Err (ISCSIDriver.unpack_error 3 fields), t).
Proof.
  destruct fields as [|a [|b [|c [|d rest]]]]; intros Hlen;
    try reflexivity. now contradict Hlen.
Qed.

Lemma unpack_error_is_value_error expected fields :
  exists msg, ISCSIDriver.unpack_error expected fields = ValueError msg.
Proof.
  unfold ISCSIDriver.unpack_error.
  destruct (Nat.ltb expected (length fields)); [eauto|].
  destruct (length fields) as [|[|n]]; eauto.
Qed.

(** The auth and geometry blocks leave the trace and the other keys
    alone. *)
Lemma set_auth_keeps v properties (t t' : trace) properties' key :
  ISCSIDriver._set_auth v properties t = (Ok properties', t') ->
  key <> "auth_method" -> key <> "auth_username" -> key <> "auth_password" ->
  t' = t /\ properties' !! key = properties !! key.
Proof.
  unfold ISCSIDriver._set_auth. intros Hrun Hm Hu Hp.
  destruct (ISCSIDriver.truthy (provider_auth v)) as [auth|].
  - destruct (PyStr.split auth) as [|a [|b [|c [|d rest]]]];
      try discriminate Hrun.
    inversion Hrun; subst. split; [reflexivity|].
    now rewrite !lookup_insert_ne by congruence.
  - inversion Hrun; subst. now split.
Qed.

Lemma set_geometry_keeps v properties (t t' : trace) properties' key :
  ISCSIDriver._set_geometry v properties t = (Ok properties', t') ->
  key <> "physical_block_size" -> key <> "logical_block_size" ->
  t' = t /\ properties' !! key = properties !! key.
Proof.
  unfold ISCSIDriver._set_geometry. intros Hrun Hp Hl.
  destruct (ISCSIDriver.truthy (provider_geometry v)) as [geometry|].
  - destruct (PyStr.split geometry) as [|a [|b [|c rest]]];
      try discriminate Hrun.
    inversion Hrun; subst. split; [reflexivity|].
    now rewrite !lookup_insert_ne by congruence.
  - inversion Hrun; subst. now split.
Qed.

(** [_get_iscsi_properties] from the point where the location has been
    selected and has its first two fields. *)
Lemma get_iscsi_properties_located
      v (t t0 : trace) location properties first iqn rest portal others lun :
  _select_location v t = (Ok (location, properties), t0) ->
  PyStr.split_on " " location = first :: iqn :: rest ->
  PyStr.split_on "," first = portal :: others ->
  _set_target_lun (first :: iqn :: rest)
                  (<["target_iqn" := VStr iqn]>
                     (<["target_portal" := VStr portal]> properties)) t0
  = (Ok (<["target_lun" := VInt lun]>
           (<["target_iqn" := VStr iqn]>
              (<["target_portal" := VStr portal]> properties))), t0) ->
  _get_iscsi_properties v t =
  (let* parsed :=
     ISCSIDriver._set_auth
       v (<["volume_id" := id v]>
            (<["target_lun" := VInt lun]>
               (<["target_iqn" := VStr iqn]>
                  (<["target_portal" := VStr portal]> properties)))) in
   ISCSIDriver._set_geometry v parsed) t0.
Proof.
  intros Hselect Hfields Hportal Hlun.
  unfold ISCSIDriver._get_iscsi_properties, index. unfold_eff.
  rewrite Hselect, Hfields. cbn [lookup list_lookup]. unfold_eff.
  rewrite Hportal. cbn [lookup list_lookup]. unfold_eff.
  rewrite Hlun.
  destruct (ISCSIDriver._set_auth _ _ _) as [[p1|e1] t1]; [|reflexivity].
  destruct (ISCSIDriver._set_geometry _ _ _) as [[p2|e2] t2]; reflexivity.
Qed.

Lemma set_auth_geometry_keeps v properties (t t' : trace) properties' key :
  (let* parsed := ISCSIDriver._set_auth v properties in
   ISCSIDriver._set_geometry v parsed) t = (Ok properties', t') ->
  key <> "auth_method" -> key <> "auth_username" -> key <> "auth_password" ->
  key <> "physical_block_size" -> key <> "logical_block_size" ->
  t' = t /\ properties' !! key = properties !! key.
Proof.
  unfold bind. intros Hrun Hm Hu Hp Hphys Hlog.
  destruct (ISCSIDriver._set_auth v properties t) as [[p1|e1] t1] eqn:Hauth;
    [|discriminate].
  destruct (set_auth_keeps _ _ _ _ _ key Hauth Hm Hu Hp) as [-> Hkey1].
  destruct (set_geometry_keeps _ _ _ _ _ key Hrun Hphys Hlog) as [-> Hkey2].
  split; [reflexivity | congruence].
Qed.

(** With neither auth nor geometry stored, the two blocks change
    nothing. *)
Lemma set_auth_geometry_absent v properties (t : trace) :
  ISCSIDriver.truthy (provider_auth v) = None ->
  ISCSIDriver.truthy (provider_geometry v) = None ->
  (let* parsed := ISCSIDriver._set_auth v properties in
   ISCSIDriver._set_geometry v parsed) t = (Ok properties, t).
Proof.
  intros Hauth Hgeometry.
  unfold bind, ISCSIDriver._set_auth, ISCSIDriver._set_geometry.
  now rewrite Hauth, Hgeometry.
Qed.

(** A stored location is used as it is. *)
Lemma select_location_stored v (t : trace) location :
  ISCSIDriver.truthy (provider_location v) = Some location ->
  _select_location v t
  = (Ok (location, <["target_discovered" := VBool false]> ∅), t).
Proof.
  intros Hlocation. unfold ISCSIDriver._select_location.
  now rewrite Hlocation.
Qed.

(** A location with fewer than two fields stops at [results[1]]. *)
Lemma get_iscsi_properties_short v (t t0 : trace) location properties :
  _select_location v t = (Ok (location, properties), t0) ->
  (length (PyStr.split_on " " location) < 2)%nat ->
  _get_iscsi_properties v t = (Err IndexError, t0).
Proof.
  intros Hselect Hshort.
  unfold ISCSIDriver._get_iscsi_properties, index. unfold_eff.
  rewrite Hselect.
  destruct (PyStr.split_on " " location) as [|first [|iqn rest]];
    [reflexivity | | simpl in Hshort; lia].
  cbn [lookup list_lookup]. unfold_eff.
  destruct (split_on_cons "," first) as (portal & others & ->).
  reflexivity.
Qed.

(** The discovery command and what it is run with. *)
Lemma do_iscsi_discovery_run v (t : trace) out err :
  execute_outcome
    env (executions t)
    ["iscsiadm"; "-m"; "discovery"; "-t"; "sendtargets"; "-p"; host v]
    {[ "run_as_root" := VBool true ]} = Ok (out, err) ->
  ISCSIDriver._do_iscsi_discovery configuration env v t
  = (Ok (List.find
           (fun target =>
              PyStr.contains (iscsi_ip_address configuration) target
              && PyStr.contains (name v) target)
           (PyStr.splitlines out)),
     t ++ [Log WARN "ISCSI provider_location not stored, using discovery" [];
           Execute
             ["iscsiadm"; "-m"; "discovery"; "-t"; "sendtargets"; "-p"; host v]
             {[ "run_as_root" := VBool true ]}]).
Proof.
  intros Hout. unfold ISCSIDriver._do_iscsi_discovery, VolumeDriver._execute.
  unfold_eff. rewrite executions_snoc. cbn [is_execute].
  rewrite Nat.add_0_r, Hout. now rewrite <- app_assoc.
Qed.

End Resolver.

(** C6.  For a volume whose [provider_location] is
    [10.0.0.5:3260,1 iqn.example:target 2], the properties
    [_get_iscsi_properties] returns have [target_portal] [10.0.0.5:3260],
    [target_iqn] [iqn.example:target] and [target_lun] [2]; with neither
    auth nor geometry stored it returns, and these with [target_discovered]
    and [volume_id] are all the properties. *)
Theorem stored_location_with_lun_is_parsed configuration env v (t : trace) :
  provider_location v = Some "10.0.0.5:3260,1 iqn.example:target 2" ->
  (forall p t',
     ISCSIDriver._get_iscsi_properties configuration env v t = (Ok p, t') ->
     p !! "target_portal" = Some (VStr "10.0.0.5:3260")
     /\ p !! "target_iqn" = Some (VStr "iqn.example:target")
     /\ p !! "target_lun" = Some (VInt 2))
  /\ (ISCSIDriver.truthy (provider_auth v) = None ->
      ISCSIDriver.truthy (provider_geometry v) = None ->
      ISCSIDriver._get_iscsi_properties configuration env v t
      = (Ok (<["volume_id" := id v]>
               (<["target_lun" := VInt 2]>
                  (<["target_iqn" := VStr "iqn.example:target"]>
                     (<["target_portal" := VStr "10.0.0.5:3260"]>
                        (<["target_discovered" := VBool false]> ∅))))), t)).
Proof.
  intros Hlocation.
  assert (Hselect :
            ISCSIDriver._select_location configuration env v t
            = (Ok ("10.0.0.5:3260,1 iqn.example:target 2",
                   <["target_discovered" := VBool false]> ∅), t))
    by (apply select_location_stored; now rewrite Hlocation).
  destruct (set_target_lun_run
              configuration
              ["10.0.0.5:3260,1"; "iqn.example:target"; "2"]
              (<["target_iqn" := VStr "iqn.example:target"]>
                 (<["target_portal" := VStr "10.0.0.5:3260"]>
                    (<["target_discovered" := VBool false]> ∅))) t)
    as (lun & Hlun & _ & Hvalid).
  rewrite (Hvalid "2" 2 eq_refl eq_refl) in Hlun.
  pose proof (get_iscsi_properties_located
                configuration env v t t _ _ _ _ _ "10.0.0.5:3260" ["1"] 2
                Hselect eq_refl eq_refl Hlun) as Hrun.
  rewrite Hrun. split.
  - intros p t' Hp.
    repeat split;
      (eapply set_auth_geometry_keeps with (key := _) in Hp as [_ ->];
       [reflexivity | discriminate..]).
  - intros Hauth Hgeometry. now apply set_auth_geometry_absent.
Qed.

Lemma stored_location_with_lun_is_parsed_witness :
  ISCSIDriver._get_iscsi_properties
    Scenario.configuration Scenario.invalid_device
    (Scenario.stored_volume "10.0.0.5:3260,1 iqn.example:target 2" None) []
  = (Ok (<["volume_id" := VInt 1]>
           (<["target_lun" := VInt 2]>
              (<["target_iqn" := VStr "iqn.example:target"]>
                 (<["target_portal" := VStr "10.0.0.5:3260"]>
                    (<["target_discovered" := VBool false]> ∅))))), []).
Proof.
  apply (stored_location_with_lun_is_parsed
           Scenario.configuration Scenario.invalid_device
           (Scenario.stored_volume "10.0.0.5:3260,1 iqn.example:target 2" None)
           []);
    reflexivity.
Defined.

(** C7.  When the third field of the split location is missing or is not an
    integer, the LUN [_get_iscsi_properties] sets is 1 if [volume_driver] is
    [LVMISCSIDriver] or [ThinLVMVolumeDriver] and [iscsi_helper] is
    [tgtadm], and 0 for any other configuration; it is the [target_lun] of
    the properties returned. *)
Theorem missing_lun_defaults_by_backend configuration env results :
  results !! 2%nat = None
  \/ (exists field, results !! 2%nat = Some field /\ PyStr.int field = None) ->
  exists lun,
    ((volume_driver configuration = "cinder.volume.drivers.lvm.LVMISCSIDriver"
      \/ volume_driver configuration
         = "cinder.volume.drivers.lvm.ThinLVMVolumeDriver")
     /\ iscsi_helper configuration = "tgtadm" -> lun = 1)
    /\ (~ ((volume_driver configuration
            = "cinder.volume.drivers.lvm.LVMISCSIDriver"
            \/ volume_driver configuration
               = "cinder.volume.drivers.lvm.ThinLVMVolumeDriver")
           /\ iscsi_helper configuration = "tgtadm") -> lun = 0)
    /\ (forall properties (t : trace),
          ISCSIDriver._set_target_lun configuration results properties t
          = (Ok (<["target_lun" := VInt lun]> properties), t))
    /\ (forall v (t t0 t' : trace) location properties p,
          ISCSIDriver._select_location configuration env v t
          = (Ok (location, properties), t0) ->
          PyStr.split_on " " location = results ->
          ISCSIDriver._get_iscsi_properties configuration env v t = (Ok p, t') ->
          p !! "target_lun" = Some (VInt lun)).
Proof.
  intros Hthird.
  exists (if ISCSIDriver.lun_defaults_to_one configuration then 1 else 0).
  pose proof (lun_defaults_to_one_iff configuration) as Hpolicy.
  assert (Hset : forall properties (t : trace),
             ISCSIDriver._set_target_lun configuration results properties t
             = (Ok (<["target_lun" :=
                        VInt (if ISCSIDriver.lun_defaults_to_one configuration
                              then 1 else 0)]> properties), t)).
  { intros properties t.
    destruct (set_target_lun_run configuration results properties t)
      as (lun & Hrun & Hdefault & _).
    now rewrite <- (Hdefault Hthird). }
  split; [|split; [|split]].
  - intros Hyes. apply Hpolicy in Hyes. now rewrite Hyes.
  - intros Hno.
    destruct (ISCSIDriver.lun_defaults_to_one configuration); [|reflexivity].
    contradict Hno. now apply Hpolicy.
  - exact Hset.
  - intros v t t0 t' location properties p Hselect Hfields Hrun.
    destruct results as [|first [|iqn rest]].
    + rewrite (get_iscsi_properties_short configuration env v t t0 location properties)
        in Hrun; [discriminate | exact Hselect | rewrite Hfields; simpl; lia].
    + rewrite (get_iscsi_properties_short configuration env v t t0 location properties)
        in Hrun; [discriminate | exact Hselect | rewrite Hfields; simpl; lia].
    + destruct (split_on_cons "," first) as (portal & others & Hportal).
      rewrite (get_iscsi_properties_located
                 configuration env v t t0 location properties
                 first iqn rest portal others _ Hselect Hfields Hportal
                 (Hset _ t0)) in Hrun.
      eapply set_auth_geometry_keeps with (key := "target_lun") in Hrun
          as [_ ->]; try discriminate.
      rewrite lookup_insert_ne by discriminate. apply lookup_insert_eq.
Qed.

Lemma missing_lun_defaults_by_backend_witness :
  exists lun,
    lun = 1
    /\ ISCSIDriver._get_iscsi_properties
         Scenario.configuration Scenario.invalid_device
         Scenario.located_volume []
       = (Ok (<["target_lun" := VInt lun]> (data Scenario.connection)), []).
Proof.
  destruct (missing_lun_defaults_by_backend
              Scenario.configuration Scenario.invalid_device
              ["10.0.0.5:3260,1"; "iqn.example:target"])
    as (lun & Hone & _ & _ & _).
  - left. reflexivity.
  - exists lun. split.
    + apply Hone. split; [left|]; reflexivity.
    + rewrite Hone by (split; [left|]; reflexivity). reflexivity.
Defined.

(** C8.  For a volume without a stored [provider_location], when no line the
    discovery command prints contains both [iscsi_ip_address] and the name
    of the volume, [_get_iscsi_properties] raises [InvalidVolume], the
    typed "could not find iSCSI export" error, and returns no properties. *)
Theorem discovery_without_match_raises_invalid_volume
        configuration env v (t : trace) out err :
  provider_location v = None \/ provider_location v = Some EmptyString ->
  execute_outcome
    env (executions t)
    ["iscsiadm"; "-m"; "discovery"; "-t"; "sendtargets"; "-p"; host v]
    {[ "run_as_root" := VBool true ]} = Ok (out, err) ->
  (forall line,
     In line (PyStr.splitlines out) ->
     ~ (PyStr.contains (iscsi_ip_address configuration) line = true
        /\ PyStr.contains (name v) line = true)) ->
  ISCSIDriver._get_iscsi_properties configuration env v t
  = (Err (InvalidVolume ("Could not find iSCSI export for volume " +:+ name v)),
     t ++ [Log WARN "ISCSI provider_location not stored, using discovery" [];
           Execute
             ["iscsiadm"; "-m"; "discovery"; "-t"; "sendtargets"; "-p"; host v]
             {[ "run_as_root" := VBool true ]}]).
Proof.
  intros Hlocation Hout Hnone.
  assert (Hfalsy : ISCSIDriver.truthy (provider_location v) = None)
    by (destruct Hlocation as [-> | ->]; reflexivity).
  unfold ISCSIDriver._get_iscsi_properties, ISCSIDriver._select_location.
  rewrite Hfalsy. unfold bind at 1 2.
  rewrite (do_iscsi_discovery_run configuration env v t out err Hout).
  rewrite find_none_intro; [reflexivity|].
  intros line Hline. specialize (Hnone line Hline).
  destruct (PyStr.contains (iscsi_ip_address configuration) line);
    destruct (PyStr.contains (name v) line); try reflexivity.
  contradict Hnone. now split.
Qed.

Lemma discovery_without_match_raises_invalid_volume_witness :
  fst (ISCSIDriver._get_iscsi_properties
         Scenario.configuration Scenario.discovers_other_export
         Scenario.unlocated_volume [])
  = Err (InvalidVolume
           "Could not find iSCSI export for volume volume-00000001").
Proof.
  rewrite (discovery_without_match_raises_invalid_volume
             Scenario.configuration Scenario.discovers_other_export
             Scenario.unlocated_volume [] Scenario.other_export EmptyString).
  - reflexivity.
  - left. reflexivity.
  - reflexivity.
  - intros line [<- | []]. vm_compute. intros [_ Hname]. discriminate Hname.
Defined.

(** C9, as the code has it.  For a volume whose [provider_auth] is not empty
    and does not split into three fields, [_get_iscsi_properties] returns
    no properties: once the location is selected and has its two fields,
    the unpacking of the auth string raises the built-in [ValueError], which
    is not the [InvalidVolume] of a missing export; an error of an earlier
    step is the one raised when there is one. *)
Theorem malformed_auth_raises_value_error configuration env v (t : trace) auth :
  provider_auth v = Some auth ->
  auth <> EmptyString ->
  length (PyStr.split auth) <> 3%nat ->
  (exists msg, ISCSIDriver.unpack_error 3 (PyStr.split auth) = ValueError msg)
  /\ match ISCSIDriver._select_location configuration env v t with
     | (Err e, t0) =>
         ISCSIDriver._get_iscsi_properties configuration env v t = (Err e, t0)
     | (Ok (location, _), t0) =>
         ISCSIDriver._get_iscsi_properties configuration env v t
         = (Err (if Nat.leb 2 (length (PyStr.split_on " " location))
                 then ISCSIDriver.unpack_error 3 (PyStr.split auth)
                 else IndexError), t0)
     end.
Proof.
  intros Hauth Hnonempty Hfields.
  split; [apply unpack_error_is_value_error|].
  destruct (ISCSIDriver._select_location configuration env v t)
    as [[[location properties]|e] t0] eqn:Hselect.
  - destruct (Nat.leb_spec 2 (length (PyStr.split_on " " location))) as [Hlong|Hshort].
    + destruct (PyStr.split_on " " location) as [|first [|iqn rest]] eqn:Hsplit;
        [simpl in Hlong; lia | simpl in Hlong; lia |].
      destruct (split_on_cons "," first) as (portal & others & Hportal).
      destruct (set_target_lun_run
                  configuration (first :: iqn :: rest)
                  (<["target_iqn" := VStr iqn]>
                     (<["target_portal" := VStr portal]> properties)) t0)
        as (lun & Hlun & _).
      rewrite (get_iscsi_properties_located
                 configuration env v t t0 location properties
                 first iqn rest portal others lun Hselect Hsplit Hportal Hlun).
      unfold bind, ISCSIDriver._set_auth. rewrite Hauth.
      destruct auth as [|c auth]; [congruence|]. cbn [ISCSIDriver.truthy].
      unfold bind. now rewrite unpack3_mismatch.
    + apply (get_iscsi_properties_short
               configuration env v t t0 location properties Hselect Hshort).
  - unfold ISCSIDriver._get_iscsi_properties, bind. now rewrite Hselect.
Qed.

Lemma malformed_auth_raises_value_error_witness :
  Scenario.resolve_short_auth
  = (Err (ValueError "need more than 2 values to unpack"), []).
Proof.
  destruct (malformed_auth_raises_value_error
              Scenario.configuration Scenario.invalid_device
              Scenario.short_auth_volume [] "CHAP user")
    as [_ Hrun].
  - reflexivity.
  - discriminate.
  - vm_compute. discriminate.
  - exact Hrun.
Defined.

(** C9 does not hold: the auth string [CHAP user] has two fields and
    [_get_iscsi_properties] raises a plain [ValueError], not
    [InvalidVolume]. *)
Lemma short_auth_raises_untyped_error :
  fst Scenario.resolve_short_auth
  = Err (ValueError "need more than 2 values to unpack").
Proof.
  vm_compute. reflexivity.
Qed.

(** ** The retrying executor on the scenarios *)

Lemma try_execute_recovers_after_failures_witness :
  exists t',
    VolumeDriver._try_execute Scenario.configuration Scenario.busy_twice
                              ["lvremove"] ∅ ["No such device"] []
    = Some (Ok true, t')
    /\ executions t' = 3%nat.
Proof.
  apply (try_execute_recovers_after_failures
           Scenario.configuration Scenario.busy_twice
           ["lvremove"] ∅ ["No such device"] [] 2
           (fun _ => "device is busy")).
  - reflexivity.
  - intros i Hi. destruct i as [|[|i]]; [reflexivity | reflexivity | lia].
  - intros i item Hi [<- | []]. reflexivity.
  - exists (EmptyString, EmptyString). reflexivity.
Defined.

Lemma try_execute_non_recoverable_single_attempt_witness :
  VolumeDriver._try_execute Scenario.configuration Scenario.no_such_device
                            ["lvremove"] ∅ ["No such device"] []
  = Some (Err (ProcessExecutionError "lvremove: No such device"),
          [Execute ["lvremove"] ∅])
  /\ executions [Execute ["lvremove"] ∅] = 1%nat.
Proof.
  apply (try_execute_non_recoverable_single_attempt
           Scenario.configuration Scenario.no_such_device
           ["lvremove"] ∅ ["No such device"] []
           "lvremove: No such device" "No such device").
  - reflexivity.
  - left. reflexivity.
  - reflexivity.
Defined.

(** * More of the driver *)

(** ** The retrying executor: every way out of the loop *)

Section RetryTrace.

Variable configuration : Configuration.
Variable env : Collaborators.

Lemma executions_app (t1 t2 : trace) :
  executions (t1 ++ t2) = (executions t1 + executions t2)%nat.
Proof. apply occurrences_app. Qed.

Lemma executions_retried_attempts command kwargs (k : nat) :
  forall tries, executions (retried_attempts command kwargs tries k) = k.
Proof.
  induction k as [|k IH]; intros tries; [reflexivity|].
  cbn [retried_attempts]. rewrite executions_app, IH. reflexivity.
Qed.

Lemma sleeps_retried_attempts command kwargs (k : nat) :
  forall tries : nat,
    List.filter is_sleep (retried_attempts command kwargs (Z.of_nat tries) k)
    = List.map (fun n => Sleep (Z.of_nat n ^ 2)) (List.seq (S tries) k).
Proof.
  induction k as [|k IH]; intros tries; [reflexivity|].
  cbn [retried_attempts List.seq List.map].
  rewrite List.filter_app.
  replace (Z.of_nat tries + 1) with (Z.of_nat (S tries)) by lia.
  rewrite IH. reflexivity.
Qed.

(** The loop after [k] failures that are retried and an outcome that ends
    it: the trace is that of the [k] retried attempts and the last call. *)
Lemma try_execute_loop_run command kwargs items (k : nat) :
  forall (fuel : nat) (tries : Z) (t : trace) (stderr : nat -> string) outcome,
    (k < fuel)%nat ->
    ((0 < k)%nat -> tries + Z.of_nat k < num_shell_tries configuration) ->
    (forall i, (i < k)%nat ->
       execute_outcome env (executions t + i) command kwargs
       = Err (ProcessExecutionError (stderr i))) ->
    (forall i item, (i < k)%nat -> In item items ->
       PyStr.contains item (stderr i) = false) ->
    execute_outcome env (executions t + k) command kwargs = outcome ->
    ends_loop configuration items (tries + Z.of_nat k) outcome ->
    VolumeDriver._try_execute_loop configuration env fuel tries
                                   command kwargs items t
    = Some (last_attempt outcome,
            t ++ retried_attempts command kwargs tries k
              ++ [Execute command kwargs]).
Proof.
  induction k as [|k IH];
    intros fuel tries t stderr outcome Hfuel Htries Hfail Hclean Hlast Hends.
  - destruct fuel as [|fuel]; [lia|].
    rewrite try_execute_loop_step. rewrite Nat.add_0_r in Hlast.
    rewrite Hlast. cbv zeta. cbn [retried_attempts app].
    replace (tries + Z.of_nat 0) with tries in Hends by lia.
    destruct outcome as [out|[]]; try reflexivity.
    cbn [ends_loop] in Hends.
    destruct (Z.geb_spec (tries + 1) (num_shell_tries configuration)) as [Hge|Hlt];
      [reflexivity|].
    destruct Hends as [Hlimit|Hitem]; [lia|]. now rewrite Hitem.
  - destruct fuel as [|fuel]; [lia|].
    rewrite try_execute_loop_step.
    pose proof (Hfail 0%nat ltac:(lia)) as H0. rewrite Nat.add_0_r in H0.
    rewrite H0.
    rewrite (is_non_recoverable_false (stderr 0%nat) items)
      by (intros item Hin; apply (Hclean 0%nat item); [lia | exact Hin]).
    destruct (Z.geb_spec (tries + 1) (num_shell_tries configuration)) as [Hge|Hlt];
      [lia|]. cbv zeta. cbn [orb].
    set (t2 := (t ++ [Execute command kwargs]) ++ _).
    assert (Ht2 : t2 = t ++ retried_attempt command kwargs (tries + 1))
      by (unfold t2, retried_attempt; now rewrite <- app_assoc).
    assert (Hex : executions t2 = (executions t + 1)%nat)
      by (rewrite Ht2, executions_app; reflexivity).
    rewrite (IH fuel (tries + 1) t2 (fun i => stderr (S i)) outcome).
    + rewrite Ht2. cbn [retried_attempts]. now rewrite <- !app_assoc.
    + lia.
    + lia.
    + intros i Hi. rewrite Hex.
      replace (executions t + 1 + i)%nat with (executions t + S i)%nat by lia.
      apply Hfail. lia.
    + intros i item Hi Hin. apply (Hclean (S i) item); [lia | exact Hin].
    + rewrite Hex, <- Hlast. f_equal. lia.
    + replace (tries + 1 + Z.of_nat k) with (tries + Z.of_nat (S k)) by lia.
      exact Hends.
Qed.

End RetryTrace.

(** [item in s] is true exactly of the strings that have [item] inside. *)
Lemma prefix_iff item s :
  String.prefix item s = true <-> exists post, s = item +:+ post.
Proof.
  revert s. induction item as [|c item IH]; intros s.
  - split; [eauto | now destruct s].
  - destruct s as [|c' s]; simpl;
      [split; [discriminate | intros [post Hs]; discriminate]|].
    destruct (ascii_dec c c') as [<-|Hne].
    + rewrite IH. split; intros [post Hs]; exists post.
      * now rewrite Hs.
      * now inversion Hs.
    + split; [discriminate|]. intros [post Hs].
      change (String c' s = String c (item +:+ post)) in Hs. congruence.
Qed.

Lemma contains_iff item s :
  PyStr.contains item s = true <-> exists pre post, s = pre +:+ item +:+ post.
Proof.
  induction s as [|c s IH].
  - cbn [PyStr.contains]. destruct (String.prefix item EmptyString) eqn:Hp.
    + split; [|reflexivity]. intros _.
      apply prefix_iff in Hp as [post Hs]. now exists EmptyString, post.
    + split; [discriminate|]. intros (pre & post & Hs).
      destruct pre; [|discriminate].
      assert (String.prefix item EmptyString = true)
        by (apply prefix_iff; now exists post).
      congruence.
  - cbn [PyStr.contains]. destruct (String.prefix item (String c s)) eqn:Hp.
    + split; [|reflexivity]. intros _.
      apply prefix_iff in Hp as [post Hs]. now exists EmptyString, post.
    + rewrite IH. split.
      * intros (pre & post & ->). now exists (String c pre), post.
      * intros (pre & post & Hs). destruct pre as [|c' pre].
        -- assert (String.prefix item (String c s) = true)
             by (apply prefix_iff; now exists post).
           congruence.
        -- inversion Hs. now exists pre, post.
Qed.

(** X1.  [_is_non_recoverable] answers [True] exactly when one of the listed
    patterns occurs somewhere inside the error text. *)
Theorem is_non_recoverable_iff_pattern_occurs err non_recoverable_list :
  VolumeDriver._is_non_recoverable err non_recoverable_list = true <->
  exists item pre post,
    In item non_recoverable_list /\ err = pre +:+ item +:+ post.
Proof.
  rewrite is_non_recoverable_true. split.
  - intros (item & Hin & Hc). apply contains_iff in Hc as (pre & post & Hs).
    now exists item, pre, post.
  - intros (item & pre & post & Hin & Hs). exists item. split; [exact Hin|].
    apply contains_iff. now exists pre, post.
Qed.

(** X2.  An empty pattern in [no_retry_list] makes every error
    non-recoverable: the first failing execution is raised at once, after
    one invocation. *)
Theorem empty_pattern_disables_retries
        configuration env command kwargs no_retry_list (t : trace) stderr :
  In EmptyString no_retry_list ->
  execute_outcome env (executions t) command kwargs
  = Err (ProcessExecutionError stderr) ->
  VolumeDriver._try_execute configuration env command kwargs no_retry_list t
  = Some (Err (ProcessExecutionError stderr), t ++ [Execute command kwargs]).
Proof.
  intros Hin Hfail. unfold VolumeDriver._try_execute.
  rewrite (try_execute_loop_run
             configuration env command kwargs no_retry_list 0
             _ 0 t (fun _ => EmptyString) (Err (ProcessExecutionError stderr))).
  - reflexivity.
  - lia.
  - lia.
  - intros i Hi. lia.
  - intros i item Hi. lia.
  - now rewrite Nat.add_0_r.
  - right. apply is_non_recoverable_true. exists EmptyString.
    split; [exact Hin|]. now destruct stderr.
Qed.

Lemma empty_pattern_disables_retries_witness :
  VolumeDriver._try_execute Scenario.configuration Scenario.always_busy
                            ["lvremove"] ∅ ["No such device"; EmptyString] []
  = Some (Err (ProcessExecutionError "device is busy"),
          [Execute ["lvremove"] ∅]).
Proof.
  apply (empty_pattern_disables_retries
           Scenario.configuration Scenario.always_busy
           ["lvremove"] ∅ ["No such device"; EmptyString] [] "device is busy").
  - right. left. reflexivity.
  - reflexivity.
Defined.

(** X3.  When the command fails every time with an error that matches no
    pattern, [_try_execute] raises the [ProcessExecutionError] of the last
    attempt after exactly [num_shell_tries] invocations, having paused
    between them and not after the last. *)
Theorem try_execute_gives_up_after_num_shell_tries
        configuration env command kwargs no_retry_list (t : trace)
        (n : nat) (stderr : nat -> string) :
  num_shell_tries configuration = Z.of_nat (S n) ->
  (forall i, (i <= n)%nat ->
     execute_outcome env (executions t + i) command kwargs
     = Err (ProcessExecutionError (stderr i))) ->
  (forall i item, (i < n)%nat -> In item no_retry_list ->
     PyStr.contains item (stderr i) = false) ->
  VolumeDriver._try_execute configuration env command kwargs no_retry_list t
  = Some (Err (ProcessExecutionError (stderr n)),
          t ++ retried_attempts command kwargs 0 n ++ [Execute command kwargs])
  /\ executions (t ++ retried_attempts command kwargs 0 n
                   ++ [Execute command kwargs])
     = (executions t + S n)%nat
  /\ occurrences is_sleep (retried_attempts command kwargs 0 n
                             ++ [Execute command kwargs]) = n.
Proof.
  intros Htries Hfail Hclean. split; [|split].
  - unfold VolumeDriver._try_execute.
    rewrite (try_execute_loop_run
               configuration env command kwargs no_retry_list n
               _ 0 t stderr (Err (ProcessExecutionError (stderr n)))).
    + reflexivity.
    + lia.
    + lia.
    + intros i Hi. apply Hfail. lia.
    + exact Hclean.
    + apply Hfail. lia.
    + left. lia.
  - rewrite !executions_app, executions_retried_attempts. cbn. lia.
  - unfold occurrences. rewrite List.filter_app.
    change 0 with (Z.of_nat 0).
    rewrite (sleeps_retried_attempts command kwargs n 0%nat).
    cbn [List.filter is_sleep app].
    now rewrite List.app_nil_r, List.length_map, List.length_seq.
Qed.

Lemma try_execute_gives_up_after_num_shell_tries_witness :
  VolumeDriver._try_execute Scenario.configuration Scenario.always_busy
                            ["lvremove"] ∅ ["No such device"] []
  = Some (Err (ProcessExecutionError "device is busy"),
          retried_attempts ["lvremove"] ∅ 0 2 ++ [Execute ["lvremove"] ∅]).
Proof.
  apply (try_execute_gives_up_after_num_shell_tries
           Scenario.configuration Scenario.always_busy
           ["lvremove"] ∅ ["No such device"] [] 2 (fun _ => "device is busy")).
  - reflexivity.
  - intros i Hi. destruct i as [|[|[|i]]]; try reflexivity. lia.
  - intros i item Hi [<- | []]. reflexivity.
Defined.

(** X4.  With [num_shell_tries] at most 1 (zero and negative values
    included) the command is still run once, and a failure of that run is
    raised without any retry, whatever its error text. *)
Theorem try_execute_without_tries_runs_once
        configuration env command kwargs no_retry_list (t : trace) stderr :
  num_shell_tries configuration <= 1 ->
  execute_outcome env (executions t) command kwargs
  = Err (ProcessExecutionError stderr) ->
  VolumeDriver._try_execute configuration env command kwargs no_retry_list t
  = Some (Err (ProcessExecutionError stderr), t ++ [Execute command kwargs]).
Proof.
  intros Htries Hfail. unfold VolumeDriver._try_execute.
  rewrite (try_execute_loop_run
             configuration env command kwargs no_retry_list 0
             _ 0 t (fun _ => EmptyString) (Err (ProcessExecutionError stderr))).
  - reflexivity.
  - lia.
  - lia.
  - intros i Hi. lia.
  - intros i item Hi. lia.
  - now rewrite Nat.add_0_r.
  - left. lia.
Qed.

Lemma try_execute_without_tries_runs_once_witness :
  VolumeDriver._try_execute (Scenario.with_tries 0) Scenario.always_busy
                            ["lvremove"] ∅ [] []
  = Some (Err (ProcessExecutionError "device is busy"),
          [Execute ["lvremove"] ∅]).
Proof.
  apply (try_execute_without_tries_runs_once
           (Scenario.with_tries 0) Scenario.always_busy
           ["lvremove"] ∅ [] [] "device is busy").
  - discriminate.
  - reflexivity.
Defined.

(** X5.  An exception of [_execute] that is not a [ProcessExecutionError]
    is not caught: after [k] retried failures it reaches the caller from
    attempt [k + 1], with no message and no pause after it. *)
Theorem try_execute_lets_other_exceptions_through
        configuration env command kwargs no_retry_list (t : trace)
        (k : nat) (stderr : nat -> string) ex :
  ((0 < k)%nat -> Z.of_nat k < num_shell_tries configuration) ->
  (forall i, (i < k)%nat ->
     execute_outcome env (executions t + i) command kwargs
     = Err (ProcessExecutionError (stderr i))) ->
  (forall i item, (i < k)%nat -> In item no_retry_list ->
     PyStr.contains item (stderr i) = false) ->
  execute_outcome env (executions t + k) command kwargs = Err ex ->
  (forall text, ex <> ProcessExecutionError text) ->
  VolumeDriver._try_execute configuration env command kwargs no_retry_list t
  = Some (Err ex,
          t ++ retried_attempts command kwargs 0 k ++ [Execute command kwargs]).
Proof.
  intros Htries Hfail Hclean Hlast Hother. unfold VolumeDriver._try_execute.
  rewrite (try_execute_loop_run
             configuration env command kwargs no_retry_list k
             _ 0 t stderr (Err ex)).
  - reflexivity.
  - destruct k; lia.
  - lia.
  - exact Hfail.
  - exact Hclean.
  - exact Hlast.
  - destruct ex; try exact I. now contradiction (Hother stderr0).
Qed.

Lemma try_execute_lets_other_exceptions_through_witness :
  VolumeDriver._try_execute Scenario.configuration Scenario.busy_then_broken
                            ["lvremove"] ∅ ["No such device"] []
  = Some (Err (OtherError "OSError"),
          retried_attempts ["lvremove"] ∅ 0 1 ++ [Execute ["lvremove"] ∅]).
Proof.
  apply (try_execute_lets_other_exceptions_through
           Scenario.configuration Scenario.busy_then_broken
           ["lvremove"] ∅ ["No such device"] [] 1 (fun _ => "device is busy")).
  - reflexivity.
  - intros i Hi. destruct i as [|i]; [reflexivity | lia].
  - intros i item Hi [<- | []]. reflexivity.
  - reflexivity.
  - discriminate.
Defined.

(** X6.  A non-recoverable pattern stops the retries at whatever attempt it
    shows up: after [k] retried failures, a failure whose error text contains
    a listed pattern is raised from attempt [k + 1]. *)
Theorem try_execute_stops_at_first_non_recoverable
        configuration env command kwargs no_retry_list (t : trace)
        (k : nat) (stderr : nat -> string) item :
  Z.of_nat k < num_shell_tries configuration ->
  (forall i, (i <= k)%nat ->
     execute_outcome env (executions t + i) command kwargs
     = Err (ProcessExecutionError (stderr i))) ->
  (forall i item, (i < k)%nat -> In item no_retry_list ->
     PyStr.contains item (stderr i) = false) ->
  In item no_retry_list ->
  PyStr.contains item (stderr k) = true ->
  VolumeDriver._try_execute configuration env command kwargs no_retry_list t
  = Some (Err (ProcessExecutionError (stderr k)),
          t ++ retried_attempts command kwargs 0 k ++ [Execute command kwargs])
  /\ executions (t ++ retried_attempts command kwargs 0 k
                   ++ [Execute command kwargs])
     = (executions t + S k)%nat.
Proof.
  intros Htries Hfail Hclean Hin Hmatch. split.
  - unfold VolumeDriver._try_execute.
    rewrite (try_execute_loop_run
               configuration env command kwargs no_retry_list k
               _ 0 t stderr (Err (ProcessExecutionError (stderr k)))).
    + reflexivity.
    + lia.
    + lia.
    + intros i Hi. apply Hfail. lia.
    + exact Hclean.
    + apply Hfail. lia.
    + right. apply is_non_recoverable_true. eauto.
  - rewrite !executions_app, executions_retried_attempts. cbn. lia.
Qed.

Lemma try_execute_stops_at_first_non_recoverable_witness :
  VolumeDriver._try_execute Scenario.configuration Scenario.busy_then_gone
                            ["lvremove"] ∅ ["No such device"] []
  = Some (Err (ProcessExecutionError "No such device"),
          retried_attempts ["lvremove"] ∅ 0 1 ++ [Execute ["lvremove"] ∅]).
Proof.
  apply (try_execute_stops_at_first_non_recoverable
           Scenario.configuration Scenario.busy_then_gone
           ["lvremove"] ∅ ["No such device"] [] 1
           (fun i => if Nat.eqb i 0 then "device is busy" else "No such device")
           "No such device").
  - reflexivity.
  - intros i Hi. destruct i as [|[|i]]; [reflexivity | reflexivity | lia].
  - intros i item Hi [<- | []]. destruct i as [|i]; [reflexivity | lia].
  - left. reflexivity.
  - reflexivity.
Defined.

(** X7.  Between the attempts of a command that ends up working,
    [_try_execute] logs the number of the try and sleeps its square: the
    pauses are 1, 4, 9, ... seconds, one after each failure. *)
Theorem try_execute_backs_off_quadratically
        configuration env command kwargs no_retry_list (t : trace)
        (k : nat) (stderr : nat -> string) :
  Z.of_nat k < num_shell_tries configuration ->
  (forall i, (i < k)%nat ->
     execute_outcome env (executions t + i) command kwargs
     = Err (ProcessExecutionError (stderr i))) ->
  (forall i item, (i < k)%nat -> In item no_retry_list ->
     PyStr.contains item (stderr i) = false) ->
  (exists out, execute_outcome env (executions t + k) command kwargs = Ok out) ->
  VolumeDriver._try_execute configuration env command kwargs no_retry_list t
  = Some (Ok true,
          t ++ retried_attempts command kwargs 0 k ++ [Execute command kwargs])
  /\ List.filter is_sleep (retried_attempts command kwargs 0 k
                             ++ [Execute command kwargs])
     = List.map (fun n => Sleep (Z.of_nat n ^ 2)) (List.seq 1 k).
Proof.
  intros Htries Hfail Hclean [out Hok]. split.
  - unfold VolumeDriver._try_execute.
    rewrite (try_execute_loop_run
               configuration env command kwargs no_retry_list k
               _ 0 t stderr (Ok out)).
    + reflexivity.
    + lia.
    + lia.
    + exact Hfail.
    + exact Hclean.
    + exact Hok.
    + exact I.
  - rewrite List.filter_app. change 0 with (Z.of_nat 0).
    rewrite (sleeps_retried_attempts command kwargs k 0%nat).
    cbn [List.filter is_sleep]. apply List.app_nil_r.
Qed.

Lemma try_execute_backs_off_quadratically_witness :
  VolumeDriver._try_execute Scenario.configuration Scenario.busy_twice
                            ["lvremove"] ∅ ["No such device"] []
  = Some (Ok true,
          retried_attempts ["lvremove"] ∅ 0 2 ++ [Execute ["lvremove"] ∅])
  /\ List.filter is_sleep (retried_attempts ["lvremove"] ∅ 0 2
                             ++ [Execute ["lvremove"] ∅])
     = [Sleep 1; Sleep 4].
Proof.
  apply (try_execute_backs_off_quadratically
           Scenario.configuration Scenario.busy_twice
           ["lvremove"] ∅ ["No such device"] [] 2
           (fun _ => "device is busy")).
  - reflexivity.
  - intros i Hi. destruct i as [|[|i]]; [reflexivity | reflexivity | lia].
  - intros i item Hi [<- | []]. reflexivity.
  - exists (EmptyString, EmptyString). reflexivity.
Defined.

(** The loop calls the shell at least once and no more often than the tries
    that are left. *)
Lemma try_execute_loop_bound configuration env command kwargs items (fuel : nat) :
  forall (tries : Z) (t t' : trace) r,
    VolumeDriver._try_execute_loop configuration env fuel tries
                                   command kwargs items t = Some (r, t') ->
    (executions t < executions t')%nat
    /\ Z.of_nat (executions t' - executions t)
       <= Z.max 1 (num_shell_tries configuration - tries).
Proof.
  induction fuel as [|fuel IH]; intros tries t t' r Hrun; [discriminate|].
  rewrite try_execute_loop_step in Hrun. cbv zeta in Hrun.
  assert (Hone : executions (t ++ [Execute command kwargs])
                 = (executions t + 1)%nat)
    by (rewrite executions_snoc; reflexivity).
  destruct (execute_outcome env (executions t) command kwargs) as [out|ex].
  - inversion Hrun; subst. rewrite Hone. lia.
  - destruct ex; try (inversion Hrun; subst; rewrite Hone; lia).
    destruct (Z.geb_spec (tries + 1) (num_shell_tries configuration)) as [Hge|Hlt];
      cbn [orb] in Hrun; [inversion Hrun; subst; rewrite Hone; lia|].
    destruct (VolumeDriver._is_non_recoverable stderr items);
      [inversion Hrun; subst; rewrite Hone; lia|].
    apply IH in Hrun as [Hmore Hbound].
    rewrite executions_app, Hone in Hmore, Hbound.
    cbn in Hmore, Hbound. lia.
Qed.

(** X8.  Whatever the shell does, [_try_execute] ends, and by then it has
    invoked the command at least once and at most [num_shell_tries] times
    (once when the option is below 1). *)
Theorem try_execute_invocations_are_bounded
        configuration env command kwargs no_retry_list (t : trace) :
  exists r t',
    VolumeDriver._try_execute configuration env command kwargs no_retry_list t
    = Some (r, t')
    /\ (executions t < executions t')%nat
    /\ Z.of_nat (executions t' - executions t)
       <= Z.max 1 (num_shell_tries configuration).
Proof.
  destruct (try_execute_loop_total
              configuration env command kwargs no_retry_list
              (Z.to_nat (Z.max 1 (num_shell_tries configuration))) 0 t)
    as (r & t' & Hrun); [lia|].
  exists r, t'. split; [exact Hrun|].
  apply try_execute_loop_bound in Hrun as [Hmore Hbound].
  split; [exact Hmore|]. now rewrite Z.sub_0_r in Hbound.
Qed.

(** ** The attach protocol: the other ways through it *)

Section AttachOutcomes.

Variable configuration : Configuration.
Variable env : Collaborators.
Variable self : Methods.

(** [_attach_volume] when every step works. *)
Lemma attach_volume_valid context v properties (t t0 : trace) conn c device path :
  VolumeDriver.self_initialize_connection self v properties t = (Ok conn, t0) ->
  factory_outcome env (driver_volume_type conn)
                  (use_multipath_for_image_xfer configuration) = Ok c ->
  connect_volume_outcome env c (data conn) = Ok device ->
  device !! "path" = Some path ->
  check_valid_device_outcome env c path = Ok true ->
  VolumeDriver._attach_volume configuration env self context v properties t
  = (Ok (conn, device, c), t0 ++ attach_calls configuration conn c path).
Proof.
  intros Hinit Hfactory Hconnect Hpath Hvalid.
  unfold VolumeDriver._attach_volume. unfold_eff.
  rewrite Hinit, Hfactory, Hconnect, Hpath, Hvalid. simpl.
  unfold attach_calls. now rewrite <- !app_assoc.
Qed.

(** Every way [_attach_volume] can go, by the first step that fails. *)
Lemma attach_volume_run context v properties (t : trace) :
  VolumeDriver._attach_volume configuration env self context v properties t
  = match VolumeDriver.self_initialize_connection self v properties t with
    | (Err e, t0) => (Err e, t0)
    | (Ok conn, t0) =>
        let t1 := t0 ++ [Factory (driver_volume_type conn)
                                 (use_multipath_for_image_xfer configuration)] in
        match factory_outcome env (driver_volume_type conn)
                              (use_multipath_for_image_xfer configuration) with
        | Err e => (Err e, t1)
        | Ok c =>
            let t2 := t1 ++ [ConnectVolume c (data conn)] in
            match connect_volume_outcome env c (data conn) with
            | Err e => (Err e, t2)
            | Ok device =>
                match device !! "path" with
                | None => (Err (KeyError "path"), t2)
                | Some path =>
                    let t3 := t2 ++ [CheckValidDevice c path] in
                    match check_valid_device_outcome env c path with
                    | Err e => (Err e, t3)
                    | Ok false =>
                        (Err (DeviceUnavailable
                                path
                                ("Unable to access the backend storage via the path "
                                   +:+ py_str path +:+ ".")),
                         t3)
                    | Ok true => (Ok (conn, device, c), t3)
                    end
                end
            end
        end
    end.
Proof.
  unfold VolumeDriver._attach_volume. unfold_eff.
  destruct (VolumeDriver.self_initialize_connection self v properties t)
    as [[conn|e] t0]; [|reflexivity].
  destruct (factory_outcome env (driver_volume_type conn) _) as [c|e];
    [|reflexivity].
  destruct (connect_volume_outcome env c (data conn)) as [device|e];
    [|reflexivity].
  destruct (device !! "path") as [path|]; [|reflexivity]. unfold_eff.
  destruct (check_valid_device_outcome env c path) as [[|]|e]; reflexivity.
Qed.

Lemma copy_volume_to_image_unattached
      context v image_service image_meta (t t1 : trace) properties e :
  get_connector_properties_outcome env = Ok properties ->
  VolumeDriver._attach_volume configuration env self context v properties
                              (before_attach "copy_volume_to_image %s." v t)
  = (Err e, t1) ->
  VolumeDriver.copy_volume_to_image configuration env self
                                    context v image_service image_meta t
  = (Err e, t1).
Proof.
  intros Hprops Hattach.
  unfold VolumeDriver.copy_volume_to_image, before_attach in *.
  unfold_eff. now rewrite Hprops, Hattach.
Qed.

End AttachOutcomes.

(** X9.  When the attach fails, at whatever step, the image copies raise
    its exception and do nothing more: the copy is not started and neither
    [disconnect_volume] nor [terminate_connection] is called. *)
Theorem failed_attach_is_not_torn_down
        configuration env self context v image_service image_id image_meta
        (t t_fetch t_upload : trace) properties e e' :
  get_connector_properties_outcome env = Ok properties ->
  VolumeDriver._attach_volume configuration env self context v properties
                              (before_attach "copy_image_to_volume %s." v t)
  = (Err e, t_fetch) ->
  VolumeDriver._attach_volume configuration env self context v properties
                              (before_attach "copy_volume_to_image %s." v t)
  = (Err e', t_upload) ->
  VolumeDriver.copy_image_to_volume configuration env self
                                    context v image_service image_id t
  = (Err e, t_fetch)
  /\ VolumeDriver.copy_volume_to_image configuration env self
                                       context v image_service image_meta t
     = (Err e', t_upload).
Proof.
  intros Hprops Hfetch Hupload. split.
  - now apply copy_image_to_volume_unattached with (properties := properties).
  - now apply copy_volume_to_image_unattached with (properties := properties).
Qed.

Lemma failed_attach_is_not_torn_down_witness :
  VolumeDriver.copy_image_to_volume
    Scenario.configuration Scenario.invalid_device
    (Scenario.iscsi_driver Scenario.invalid_device)
    VNone Scenario.located_volume VNone "image-1" []
  = (Err (DeviceUnavailable
            (VStr "/dev/sdb")
            "Unable to access the backend storage via the path /dev/sdb."),
     before_attach "copy_image_to_volume %s." Scenario.located_volume []
       ++ [InitializeConnection Scenario.located_volume Scenario.host_properties]
       ++ attach_calls Scenario.configuration Scenario.connection
                       Scenario.iscsi_connector (VStr "/dev/sdb")).
Proof.
  apply (failed_attach_is_not_torn_down
           Scenario.configuration Scenario.invalid_device
           (Scenario.iscsi_driver Scenario.invalid_device)
           VNone Scenario.located_volume VNone "image-1" ∅ []
           _
           (before_attach "copy_volume_to_image %s." Scenario.located_volume []
              ++ [InitializeConnection Scenario.located_volume
                                       Scenario.host_properties]
              ++ attach_calls Scenario.configuration Scenario.connection
                              Scenario.iscsi_connector (VStr "/dev/sdb"))
           Scenario.host_properties _
           (DeviceUnavailable
              (VStr "/dev/sdb")
              "Unable to access the backend storage via the path /dev/sdb."));
    reflexivity.
Defined.

(** X10.  [copy_volume_to_image] brackets the upload as
    [copy_image_to_volume] brackets the download: after a successful attach,
    for each class of the file and whether the upload returns or raises, it
    uploads from [device['path']], calls [disconnect_volume] once and then,
    when that returns, [terminate_connection] once. *)
Theorem copy_volume_to_image_tears_down_in_order
        configuration CONF env cls context v image_service image_meta
        (t t1 : trace) properties conn device c :
  get_connector_properties_outcome env = Ok properties ->
  VolumeDriver._attach_volume
    configuration env (methods_of configuration CONF env cls)
    context v properties (before_attach "copy_volume_to_image %s." v t)
  = (Ok (conn, device, c), t1) ->
  exists path,
    connect_volume_outcome env c (data conn) = Ok device
    /\ device !! "path" = Some path
    /\ snd (VolumeDriver.copy_volume_to_image
              configuration env (methods_of configuration CONF env cls)
              context v image_service image_meta t)
       = t1 ++ [UploadVolume image_meta path;
                DisconnectVolume c (data conn) device]
            ++ match disconnect_volume_outcome env c (data conn) device with
               | Ok _ => [TerminateConnection v properties]
               | Err _ => []
               end.
Proof.
  intros Hprops Hattach.
  destruct (attach_volume_success _ _ _ _ _ _ _ _ _ _ _ Hattach)
    as (t0 & path & _ & _ & Hconnect & Hpath & _ & _).
  exists path. split; [exact Hconnect|]. split; [exact Hpath|].
  rewrite (copy_volume_to_image_attached _ _ _ _ _ _ _ _ _ _ _ _ _ _
             Hprops Hattach Hpath).
  unfold after_teardown.
  destruct (disconnect_volume_outcome env c (data conn) device) as [[]|e]; cbn [snd].
  - destruct (terminate_connection_silent
                configuration CONF env cls v properties
                (((t1 ++ [UploadVolume image_meta path])
                    ++ [DisconnectVolume c (data conn) device])
                   ++ [TerminateConnection v properties])) as [r ->].
    destruct r; cbn [snd]; now rewrite <- !app_assoc.
  - now rewrite <- !app_assoc.
Qed.

Lemma copy_volume_to_image_tears_down_in_order_witness :
  exists path,
    connect_volume_outcome Scenario.failing_disconnect
                           Scenario.iscsi_connector (data Scenario.connection)
    = Ok Scenario.device
    /\ Scenario.device !! "path" = Some path
    /\ snd (VolumeDriver.copy_volume_to_image
              Scenario.configuration Scenario.failing_disconnect
              (Scenario.iscsi_driver Scenario.failing_disconnect)
              VNone Scenario.located_volume VNone ∅ [])
       = (before_attach "copy_volume_to_image %s." Scenario.located_volume []
            ++ [InitializeConnection Scenario.located_volume
                                     Scenario.host_properties]
            ++ attach_calls Scenario.configuration Scenario.connection
                            Scenario.iscsi_connector (VStr "/dev/sdb"))
           ++ [UploadVolume ∅ path;
               DisconnectVolume Scenario.iscsi_connector
                                (data Scenario.connection) Scenario.device].
Proof.
  destruct (copy_volume_to_image_tears_down_in_order
              Scenario.configuration Scenario.CONF
              Scenario.failing_disconnect ISCSIDriverClass
              VNone Scenario.located_volume VNone ∅ []
              (before_attach "copy_volume_to_image %s." Scenario.located_volume []
                 ++ [InitializeConnection Scenario.located_volume
                                          Scenario.host_properties]
                 ++ attach_calls Scenario.configuration Scenario.connection
                                 Scenario.iscsi_connector (VStr "/dev/sdb"))
              Scenario.host_properties Scenario.connection Scenario.device
              Scenario.iscsi_connector)
    as (path & Hconnect & Hpath & Htrace).
  - reflexivity.
  - reflexivity.
  - exists path. split; [exact Hconnect|]. split; [exact Hpath|].
    exact Htrace.
Defined.

(** X11.  On [VolumeDriver] itself and on [FibreChannelDriver] an image
    copy cannot attach: [initialize_connection] raises
    [NotImplementedError], which [copy_image_to_volume] lets through before
    any connector is made. *)
Theorem copy_on_abstract_driver_is_not_implemented
        configuration CONF env cls context v image_service image_id
        (t : trace) properties :
  cls = VolumeDriverClass \/ cls = FibreChannelDriverClass ->
  get_connector_properties_outcome env = Ok properties ->
  exists msg,
    VolumeDriver.copy_image_to_volume
      configuration env (methods_of configuration CONF env cls)
      context v image_service image_id t
    = (Err (NotImplementedError msg),
       before_attach "copy_image_to_volume %s." v t
         ++ [InitializeConnection v properties]).
Proof.
  intros [-> | ->] Hprops.
  - exists EmptyString.
    apply copy_image_to_volume_unattached with (properties := properties);
      [exact Hprops|].
    now rewrite attach_volume_run.
  - exists "Driver must implement initialize_connection".
    apply copy_image_to_volume_unattached with (properties := properties);
      [exact Hprops|].
    now rewrite attach_volume_run.
Qed.

Lemma copy_on_abstract_driver_is_not_implemented_witness :
  exists msg,
    VolumeDriver.copy_image_to_volume
      Scenario.configuration Scenario.invalid_device
      (methods_of Scenario.configuration Scenario.CONF Scenario.invalid_device
                  FibreChannelDriverClass)
      VNone Scenario.located_volume VNone "image-1" []
    = (Err (NotImplementedError msg),
       before_attach "copy_image_to_volume %s." Scenario.located_volume []
         ++ [InitializeConnection Scenario.located_volume
                                  Scenario.host_properties]).
Proof.
  apply (copy_on_abstract_driver_is_not_implemented
           Scenario.configuration Scenario.CONF Scenario.invalid_device
           FibreChannelDriverClass VNone Scenario.located_volume VNone
           "image-1" [] Scenario.host_properties).
  - right. reflexivity.
  - reflexivity.
Defined.

(** ** The iSCSI driver end to end *)

Section IscsiConnection.

Variable configuration : Configuration.
Variable CONF : GlobalConf.
Variable env : Collaborators.

(** Without the [lioadm] helper, [initialize_connection] wraps what
    [_get_iscsi_properties] gives. *)
Lemma iscsi_initialize_connection_run v connector_properties (t : trace) :
  CONF_iscsi_helper CONF <> "lioadm" ->
  ISCSIDriver.initialize_connection configuration CONF env
                                    v connector_properties t
  = match ISCSIDriver._get_iscsi_properties configuration env v t with
    | (Ok iscsi_properties, t') =>
        (Ok {| driver_volume_type := "iscsi"; data := iscsi_properties |}, t')
    | (Err e, t') => (Err e, t')
    end.
Proof.
  intros Hhelper. apply String.eqb_neq in Hhelper.
  unfold ISCSIDriver.initialize_connection. rewrite Hhelper. unfold_eff.
  destruct (ISCSIDriver._get_iscsi_properties configuration env v t)
    as [[p|e] t']; reflexivity.
Qed.

End IscsiConnection.

(** X12.  End to end on an [ISCSIDriver] (helper other than [lioadm]): when
    the properties resolve, the connector connects a valid device and
    [disconnect_volume] returns, [copy_image_to_volume] connects with the
    resolved properties, copies to the device path, disconnects, terminates,
    and its result is exactly that of the copy: it returns when the copy
    returns and raises the copy's exception when the copy raises. *)
Theorem iscsi_copy_image_to_volume_end_to_end
        configuration CONF env context v image_service image_id
        (t t1 : trace) properties iscsi_properties c device path :
  CONF_iscsi_helper CONF <> "lioadm" ->
  get_connector_properties_outcome env = Ok properties ->
  ISCSIDriver._get_iscsi_properties
    configuration env v
    (before_attach "copy_image_to_volume %s." v t
       ++ [InitializeConnection v properties])
  = (Ok iscsi_properties, t1) ->
  factory_outcome env "iscsi" (use_multipath_for_image_xfer configuration)
  = Ok c ->
  connect_volume_outcome env c iscsi_properties = Ok device ->
  device !! "path" = Some path ->
  check_valid_device_outcome env c path = Ok true ->
  disconnect_volume_outcome env c iscsi_properties device = Ok tt ->
  VolumeDriver.copy_image_to_volume
    configuration env (methods_of configuration CONF env ISCSIDriverClass)
    context v image_service image_id t
  = (fetch_to_raw_outcome env image_id path,
     t1 ++ [Factory "iscsi" (use_multipath_for_image_xfer configuration);
            ConnectVolume c iscsi_properties;
            CheckValidDevice c path;
            FetchToRaw image_id path;
            DisconnectVolume c iscsi_properties device;
            TerminateConnection v properties]).
Proof.
  intros Hhelper Hprops Hresolve Hfactory Hconnect Hpath Hvalid Hdisconnect.
  assert (Hinit :
            VolumeDriver.self_initialize_connection
              (methods_of configuration CONF env ISCSIDriverClass) v properties
              (before_attach "copy_image_to_volume %s." v t)
            = (Ok {| driver_volume_type := "iscsi"; data := iscsi_properties |},
               t1)).
  { unfold VolumeDriver.self_initialize_connection. unfold_eff.
    cbn [methods_of method_initialize_connection].
    rewrite iscsi_initialize_connection_run by exact Hhelper.
    now rewrite Hresolve. }
  pose proof (attach_volume_valid
                configuration env _ context v properties _ _ _ c device path
                Hinit Hfactory Hconnect Hpath Hvalid) as Hattach.
  rewrite (copy_image_to_volume_attached _ _ _ _ _ _ _ _ _ _ _ _ _ _
             Hprops Hattach Hpath).
  unfold after_teardown, attach_calls. cbn [data driver_volume_type].
  rewrite Hdisconnect. cbn [methods_of method_terminate_connection].
  unfold ISCSIDriver.terminate_connection, ret.
  now rewrite <- !app_assoc.
Qed.

Lemma iscsi_copy_image_to_volume_end_to_end_witness :
  VolumeDriver.copy_image_to_volume
    Scenario.configuration Scenario.failing_copy
    (Scenario.iscsi_driver Scenario.failing_copy)
    VNone Scenario.located_volume VNone "image-1" []
  = (Err (OtherError "copy failed"),
     (before_attach "copy_image_to_volume %s." Scenario.located_volume []
        ++ [InitializeConnection Scenario.located_volume
                                 Scenario.host_properties])
       ++ [Factory "iscsi" false;
           ConnectVolume Scenario.iscsi_connector (data Scenario.connection);
           CheckValidDevice Scenario.iscsi_connector (VStr "/dev/sdb");
           FetchToRaw "image-1" (VStr "/dev/sdb");
           DisconnectVolume Scenario.iscsi_connector
                            (data Scenario.connection) Scenario.device;
           TerminateConnection Scenario.located_volume
                               Scenario.host_properties]).
Proof.
  apply (iscsi_copy_image_to_volume_end_to_end
           Scenario.configuration Scenario.CONF Scenario.failing_copy
           VNone Scenario.located_volume VNone "image-1" []
           _ Scenario.host_properties (data Scenario.connection)
           Scenario.iscsi_connector Scenario.device (VStr "/dev/sdb"));
    try reflexivity.
  discriminate.
Defined.

(** ** What an attach can call *)

Section OnlyAdds.

Context {A B : Type}.
Variable allowed : event -> bool.

Lemma only_adds_ret (a : A) : only_adds allowed (ret a).
Proof. intros t. exists []. now rewrite app_nil_r. Qed.

Lemma only_adds_raise (e : exn) : only_adds allowed (@raise A e).
Proof. intros t. exists []. now rewrite app_nil_r. Qed.

Lemma only_adds_call (ev : event) (answer : result A) :
  allowed ev = true -> only_adds allowed (call ev answer).
Proof. intros Hev t. exists [ev]. simpl. now rewrite Hev. Qed.

Lemma only_adds_bind (c : M A) (k : A -> M B) :
  only_adds allowed c -> (forall a, only_adds allowed (k a)) ->
  only_adds allowed (bind c k).
Proof.
  intros Hc Hk t. unfold bind. destruct (Hc t) as (s1 & Ht1 & Hs1).
  destruct (c t) as [[a|e] t1]; cbn [snd] in Ht1; subst t1.
  - destruct (Hk a (t ++ s1)) as (s2 & Ht2 & Hs2). exists (s1 ++ s2).
    rewrite Ht2, app_assoc. split; [reflexivity|].
    rewrite List.forallb_app, Hs1, Hs2. reflexivity.
  - exists s1. now split.
Qed.

Lemma only_adds_try_except (caught : exn -> bool) (body handler : M A) :
  only_adds allowed body -> only_adds allowed handler ->
  only_adds allowed (try_except caught body handler).
Proof.
  intros Hbody Hhandler t. unfold try_except.
  destruct (Hbody t) as (s1 & Ht1 & Hs1).
  destruct (body t) as [[a|e] t1]; cbn [snd] in Ht1; subst t1.
  - exists s1. now split.
  - destruct (caught e).
    + destruct (Hhandler (t ++ s1)) as (s2 & Ht2 & Hs2). exists (s1 ++ s2).
      rewrite Ht2, app_assoc. split; [reflexivity|].
      rewrite List.forallb_app, Hs1, Hs2. reflexivity.
    + exists s1. now split.
Qed.

End OnlyAdds.

Lemma only_adds_emit allowed (ev : event) :
  allowed ev = true -> only_adds allowed (emit ev).
Proof. apply only_adds_call. Qed.

Lemma only_adds_getitem allowed d key : only_adds allowed (getitem d key).
Proof.
  unfold getitem. destruct (d !! key); [apply only_adds_ret | apply only_adds_raise].
Qed.

Lemma only_adds_index {A} allowed (l : list A) i : only_adds allowed (index l i).
Proof.
  unfold index. destruct (l !! i); [apply only_adds_ret | apply only_adds_raise].
Qed.

Lemma only_adds_int allowed s : only_adds allowed (Eff.int s).
Proof.
  unfold Eff.int. destruct (PyStr.int s); [apply only_adds_ret | apply only_adds_raise].
Qed.

Lemma only_adds_execute env allowed command kwargs :
  allowed (Execute command kwargs) = true ->
  only_adds allowed (VolumeDriver._execute env command kwargs).
Proof.
  intros Hev t. exists [Execute command kwargs]. simpl. now rewrite Hev.
Qed.

Section AttachCalls.

Variable configuration : Configuration.
Variable CONF : GlobalConf.
Variable env : Collaborators.

Lemma only_adds_do_iscsi_discovery v :
  only_adds is_attach_call (ISCSIDriver._do_iscsi_discovery configuration env v).
Proof.
  unfold ISCSIDriver._do_iscsi_discovery.
  apply only_adds_bind; [now apply only_adds_emit|]. intros _.
  apply only_adds_bind; [now apply only_adds_execute|]. intros [out err].
  apply only_adds_ret.
Qed.

Lemma only_adds_select_location v :
  only_adds is_attach_call (ISCSIDriver._select_location configuration env v).
Proof.
  unfold ISCSIDriver._select_location.
  destruct (ISCSIDriver.truthy (provider_location v)); [apply only_adds_ret|].
  apply only_adds_bind; [apply only_adds_do_iscsi_discovery|]. intros found.
  destruct (ISCSIDriver.truthy found); [|apply only_adds_raise].
  apply only_adds_bind; [now apply only_adds_emit|]. intros _.
  apply only_adds_ret.
Qed.

Lemma only_adds_set_target_lun results properties :
  only_adds is_attach_call
            (ISCSIDriver._set_target_lun configuration results properties).
Proof.
  unfold ISCSIDriver._set_target_lun. apply only_adds_try_except.
  - apply only_adds_bind; [apply only_adds_index|]. intros field.
    apply only_adds_bind; [apply only_adds_int|]. intros lun.
    apply only_adds_ret.
  - destruct (ISCSIDriver.lun_defaults_to_one configuration); apply only_adds_ret.
Qed.

Lemma only_adds_set_auth v properties :
  only_adds is_attach_call (ISCSIDriver._set_auth v properties).
Proof.
  unfold ISCSIDriver._set_auth.
  destruct (ISCSIDriver.truthy (provider_auth v)) as [auth|]; [|apply only_adds_ret].
  apply only_adds_bind.
  - unfold ISCSIDriver.unpack3.
    destruct (PyStr.split auth) as [|a [|b [|c [|d rest]]]];
      first [apply only_adds_ret | apply only_adds_raise].
  - intros [[m u] p]. apply only_adds_ret.
Qed.

Lemma only_adds_set_geometry v properties :
  only_adds is_attach_call (ISCSIDriver._set_geometry v properties).
Proof.
  unfold ISCSIDriver._set_geometry.
  destruct (ISCSIDriver.truthy (provider_geometry v)) as [geometry|];
    [|apply only_adds_ret].
  apply only_adds_bind.
  - unfold ISCSIDriver.unpack2.
    destruct (PyStr.split geometry) as [|a [|b [|c rest]]];
      first [apply only_adds_ret | apply only_adds_raise].
  - intros [p l]. apply only_adds_ret.
Qed.

Lemma only_adds_get_iscsi_properties v :
  only_adds is_attach_call
            (ISCSIDriver._get_iscsi_properties configuration env v).
Proof.
  unfold ISCSIDriver._get_iscsi_properties.
  apply only_adds_bind; [apply only_adds_select_location|].
  intros [location properties].
  apply only_adds_bind; [apply only_adds_index|]. intros first.
  apply only_adds_bind; [apply only_adds_index|]. intros portal.
  apply only_adds_bind; [apply only_adds_index|]. intros iqn.
  apply only_adds_bind; [apply only_adds_set_target_lun|]. intros p1.
  apply only_adds_bind; [apply only_adds_set_auth|]. intros p2.
  apply only_adds_bind; [apply only_adds_set_geometry|]. intros p3.
  apply only_adds_ret.
Qed.

Lemma only_adds_initialize_connection cls v properties :
  only_adds is_attach_call
            (method_initialize_connection
               (methods_of configuration CONF env cls) v properties).
Proof.
  destruct cls; cbn [methods_of method_initialize_connection];
    try apply only_adds_raise; try apply only_adds_ret.
  unfold ISCSIDriver.initialize_connection.
  apply only_adds_bind.
  - destruct (String.eqb (CONF_iscsi_helper CONF) "lioadm"); [|apply only_adds_ret].
    destruct (tgtadm_initialize_connection_outcome env);
      [now apply only_adds_call | apply only_adds_raise].
  - intros _. apply only_adds_bind; [apply only_adds_get_iscsi_properties|].
    intros p. apply only_adds_ret.
Qed.

Lemma only_adds_attach_volume cls context v properties :
  only_adds is_attach_call
            (VolumeDriver._attach_volume
               configuration env (methods_of configuration CONF env cls)
               context v properties).
Proof.
  unfold VolumeDriver._attach_volume, VolumeDriver.self_initialize_connection.
  apply only_adds_bind.
  - apply only_adds_bind; [now apply only_adds_emit|]. intros _.
    apply only_adds_initialize_connection.
  - intros conn. cbv zeta.
    apply only_adds_bind; [now apply only_adds_call|]. intros c.
    apply only_adds_bind; [now apply only_adds_call|]. intros device.
    apply only_adds_bind; [apply only_adds_getitem|]. intros host_device.
    apply only_adds_bind; [now apply only_adds_call|]. intros valid.
    destruct (negb valid); [apply only_adds_raise | apply only_adds_ret].
Qed.

End AttachCalls.

Lemma forallb_occurrences (allowed p : event -> bool) (suffix : trace) :
  (forall ev, allowed ev = true -> p ev = false) ->
  List.forallb allowed suffix = true -> occurrences p suffix = 0%nat.
Proof.
  intros Hexcl. unfold occurrences.
  induction suffix as [|ev suffix IH]; [reflexivity|]. simpl.
  intros Hall. apply andb_true_iff in Hall as [Hev Hrest].
  rewrite (Hexcl ev Hev). now apply IH.
Qed.

(** X13.  On every class of the file and on every path through it, success
    or failure, [_attach_volume] only adds to the trace, and what it adds
    are messages, shell commands, [initialize_connection] and the factory,
    [connect_volume] and [check_valid_device] of the connector: it never
    calls [disconnect_volume] or [terminate_connection], never sleeps and
    never starts a copy. *)
Theorem attach_volume_never_tears_down
        configuration CONF env cls context v properties (t : trace) :
  exists suffix,
    snd (VolumeDriver._attach_volume
           configuration env (methods_of configuration CONF env cls)
           context v properties t) = t ++ suffix
    /\ List.forallb is_attach_call suffix = true
    /\ occurrences is_disconnect suffix = 0%nat
    /\ occurrences is_terminate suffix = 0%nat.
Proof.
  destruct (only_adds_attach_volume configuration CONF env cls
                                    context v properties t)
    as (suffix & Htrace & Hcalls).
  exists suffix. repeat split; try assumption.
  - apply (forallb_occurrences is_attach_call); [|exact Hcalls].
    now intros [].
  - apply (forallb_occurrences is_attach_call); [|exact Hcalls].
    now intros [].
Qed.

(** ** Connection properties: what a successful resolution contains *)

Section ResolvedProperties.

Variable configuration : Configuration.
Variable env : Collaborators.

(** The location comes from the volume, or else from the discovery. *)
Lemma select_location_success v (t t0 : trace) location properties :
  ISCSIDriver._select_location configuration env v t
  = (Ok (location, properties), t0) ->
  location <> EmptyString
  /\ properties
     = <["target_discovered" :=
           VBool (match ISCSIDriver.truthy (provider_location v) with
                  | Some _ => false
                  | None => true
                  end)]> ∅
  /\ (ISCSIDriver.truthy (provider_location v) = Some location
      \/ ISCSIDriver.truthy (provider_location v) = None).
Proof.
  unfold ISCSIDriver._select_location.
  destruct (ISCSIDriver.truthy (provider_location v)) as [stored|] eqn:Hstored.
  - intros Hrun. inversion Hrun; subst. repeat split; [|now left].
    intros ->. destruct (provider_location v) as [[|]|]; discriminate.
  - unfold bind.
    destruct (ISCSIDriver._do_iscsi_discovery configuration env v t)
      as [[found|e] t1]; [|discriminate].
    destruct found as [[|c found]|]; cbn [ISCSIDriver.truthy]; try discriminate.
    unfold emit, call, ret. intros Hrun. inversion Hrun; subst.
    repeat split; [discriminate | now right].
Qed.

(** What has happened when [_get_iscsi_properties] returns. *)
Lemma get_iscsi_properties_success v (t t' : trace) p :
  ISCSIDriver._get_iscsi_properties configuration env v t = (Ok p, t') ->
  exists location first iqn rest portal others lun (t0 : trace),
    ISCSIDriver._select_location configuration env v t
    = (Ok (location,
           <["target_discovered" :=
               VBool (match ISCSIDriver.truthy (provider_location v) with
                      | Some _ => false
                      | None => true
                      end)]> ∅), t0)
    /\ PyStr.split_on " " location = first :: iqn :: rest
    /\ PyStr.split_on "," first = portal :: others
    /\ (forall field n, rest !! 0%nat = Some field ->
                        PyStr.int field = Some n -> lun = n)
    /\ (let* parsed :=
          ISCSIDriver._set_auth
            v (<["volume_id" := id v]>
                 (<["target_lun" := VInt lun]>
                    (<["target_iqn" := VStr iqn]>
                       (<["target_portal" := VStr portal]>
                          (<["target_discovered" :=
                               VBool (match ISCSIDriver.truthy
                                              (provider_location v) with
                                      | Some _ => false
                                      | None => true
                                      end)]> ∅))))) in
        ISCSIDriver._set_geometry v parsed) t0 = (Ok p, t').
Proof.
  intros Hrun.
  destruct (ISCSIDriver._select_location configuration env v t)
    as [[[location properties]|e] t0] eqn:Hselect.
  - destruct (select_location_success _ _ _ _ _ Hselect) as (_ & -> & _).
    destruct (PyStr.split_on " " location) as [|first [|iqn rest]] eqn:Hfields.
    + rewrite (get_iscsi_properties_short configuration env v t t0 location _ Hselect)
        in Hrun; [discriminate | rewrite Hfields; simpl; lia].
    + rewrite (get_iscsi_properties_short configuration env v t t0 location _ Hselect)
        in Hrun; [discriminate | rewrite Hfields; simpl; lia].
    + destruct (split_on_cons "," first) as (portal & others & Hportal).
      destruct (set_target_lun_run
                  configuration (first :: iqn :: rest)
                  (<["target_iqn" := VStr iqn]>
                     (<["target_portal" := VStr portal]>
                        (<["target_discovered" :=
                             VBool (match ISCSIDriver.truthy
                                            (provider_location v) with
                                    | Some _ => false
                                    | None => true
                                    end)]> ∅))) t0)
        as (lun & Hlun & _ & Hvalid).
      rewrite (get_iscsi_properties_located
                 configuration env v t t0 location _
                 first iqn rest portal others lun Hselect Hfields Hportal Hlun)
        in Hrun.
      exists location, first, iqn, rest, portal, others, lun, t0.
      repeat split; try assumption; try reflexivity.
  - unfold ISCSIDriver._get_iscsi_properties, bind in Hrun.
    rewrite Hselect in Hrun. discriminate.
Qed.

(** The first field of a split has no separator in it. *)
Lemma contains_char sep c s :
  PyStr.contains (String sep EmptyString) (String c s)
  = if Ascii.eqb c sep then true
    else PyStr.contains (String sep EmptyString) s.
Proof.
  cbn [PyStr.contains String.prefix].
  destruct (ascii_dec sep c) as [<-|Hne].
  - rewrite Ascii.eqb_refl. now destruct s.
  - assert (Hneq : Ascii.eqb c sep = false)
      by (apply Ascii.eqb_neq; congruence).
    now rewrite Hneq.
Qed.

Lemma split_on_head_has_no_separator sep s field fields :
  PyStr.split_on sep s = field :: fields ->
  PyStr.contains (String sep EmptyString) field = false.
Proof.
  revert field fields. induction s as [|c s IH]; intros field fields.
  - simpl. intros [= <- <-]. reflexivity.
  - cbn [PyStr.split_on]. destruct (Ascii.eqb c sep) eqn:Hc.
    + intros [= <- <-]. reflexivity.
    + destruct (PyStr.split_on sep s) as [|field' fields'] eqn:Hsplit.
      * intros [= <- <-]. rewrite contains_char, Hc. reflexivity.
      * intros [= <- <-]. rewrite contains_char, Hc. now apply (IH field' fields').
Qed.

(** A string without the separator is one field. *)
Lemma split_on_without_separator sep s :
  PyStr.contains (String sep EmptyString) s = false ->
  PyStr.split_on sep s = [s].
Proof.
  induction s as [|c s IH]; [reflexivity|].
  rewrite contains_char. cbn [PyStr.split_on].
  destruct (Ascii.eqb c sep); [discriminate|].
  intros Hs. now rewrite (IH Hs).
Qed.

End ResolvedProperties.

(** X14.  The properties [_get_iscsi_properties] returns are never partial:
    [target_portal], [target_iqn], [target_lun], [volume_id] and
    [target_discovered] are all there, the portal has no comma in it, the
    volume id is the volume's, and [target_discovered] is false exactly when
    the volume had a [provider_location] stored. *)
Theorem resolved_properties_are_complete configuration env v (t t' : trace) p :
  ISCSIDriver._get_iscsi_properties configuration env v t = (Ok p, t') ->
  exists portal iqn lun,
    p !! "target_portal" = Some (VStr portal)
    /\ PyStr.contains "," portal = false
    /\ p !! "target_iqn" = Some (VStr iqn)
    /\ p !! "target_lun" = Some (VInt lun)
    /\ p !! "volume_id" = Some (id v)
    /\ p !! "target_discovered"
       = Some (VBool (match ISCSIDriver.truthy (provider_location v) with
                      | Some _ => false
                      | None => true
                      end)).
Proof.
  intros Hrun.
  destruct (get_iscsi_properties_success configuration env v t t' p Hrun)
    as (location & first & iqn & rest & portal & others & lun & t0
        & _ & _ & Hportal & _ & Hrest).
  exists portal, iqn, lun.
  pose proof (split_on_head_has_no_separator _ _ _ _ Hportal) as Hcomma.
  repeat split;
    try (eapply set_auth_geometry_keeps with (key := _) in Hrest as [_ ->];
         [reflexivity | discriminate..]).
  exact Hcomma.
Qed.

Lemma resolved_properties_are_complete_witness :
  exists portal iqn lun,
    data Scenario.connection !! "target_portal" = Some (VStr portal)
    /\ PyStr.contains "," portal = false
    /\ data Scenario.connection !! "target_iqn" = Some (VStr iqn)
    /\ data Scenario.connection !! "target_lun" = Some (VInt lun)
    /\ data Scenario.connection !! "volume_id" = Some (VInt 1)
    /\ data Scenario.connection !! "target_discovered" = Some (VBool false).
Proof.
  apply (resolved_properties_are_complete
           Scenario.configuration Scenario.invalid_device
           Scenario.located_volume [] [] (data Scenario.connection)).
  reflexivity.
Defined.

(** X15.  The credentials are copied whole or not at all: when
    [_get_iscsi_properties] returns for a volume with a [provider_auth], the
    string had exactly three fields and they are [auth_method],
    [auth_username] and [auth_password]; for a volume without, none of the
    three keys is set. *)
Theorem resolved_auth_is_whole configuration env v (t t' : trace) p :
  ISCSIDriver._get_iscsi_properties configuration env v t = (Ok p, t') ->
  match ISCSIDriver.truthy (provider_auth v) with
  | Some auth =>
      exists method username secret,
        PyStr.split auth = [method; username; secret]
        /\ p !! "auth_method" = Some (VStr method)
        /\ p !! "auth_username" = Some (VStr username)
        /\ p !! "auth_password" = Some (VStr secret)
  | None =>
      p !! "auth_method" = None
      /\ p !! "auth_username" = None
      /\ p !! "auth_password" = None
  end.
Proof.
  intros Hrun.
  destruct (get_iscsi_properties_success configuration env v t t' p Hrun)
    as (location & first & iqn & rest & portal & others & lun & t0
        & _ & _ & _ & _ & Hrest).
  unfold bind in Hrest.
  destruct (ISCSIDriver._set_auth v _ t0) as [[p1|e1] t1] eqn:Hauth;
    [|discriminate].
  assert (Hkeep : forall key,
             key <> "physical_block_size" -> key <> "logical_block_size" ->
             p !! key = p1 !! key)
    by (intros key Hp Hl;
        now destruct (set_geometry_keeps _ _ _ _ _ key Hrest Hp Hl)).
  unfold ISCSIDriver._set_auth in Hauth.
  destruct (ISCSIDriver.truthy (provider_auth v)) as [auth|].
  - destruct (PyStr.split auth) as [|a [|b [|c [|d more]]]];
      try discriminate Hauth.
    inversion Hauth; subst. exists a, b, c.
    rewrite !Hkeep by discriminate. repeat split.
  - inversion Hauth; subst. rewrite !Hkeep by discriminate. repeat split.
Qed.

Lemma resolved_auth_is_whole_witness :
  exists p,
    fst (ISCSIDriver._get_iscsi_properties
           Scenario.configuration Scenario.invalid_device
           Scenario.chap_volume []) = Ok p
    /\ exists method username secret,
         PyStr.split "CHAP user secret" = [method; username; secret]
         /\ p !! "auth_method" = Some (VStr method)
         /\ p !! "auth_username" = Some (VStr username)
         /\ p !! "auth_password" = Some (VStr secret).
Proof.
  eexists. split; [reflexivity|].
  apply (resolved_auth_is_whole
           Scenario.configuration Scenario.invalid_device
           Scenario.chap_volume [] []).
  reflexivity.
Defined.

Section ResolutionPaths.

Variable configuration : Configuration.
Variable env : Collaborators.

Lemma unpack2_mismatch fields (t : trace) :
  length fields <> 2%nat ->
  ISCSIDriver.unpack2 fields t = (Err (ISCSIDriver.unpack_error 2 fields), t).
Proof.
  destruct fields as [|a [|b [|c rest]]]; intros Hlen;
    try reflexivity. now contradict Hlen.
Qed.

Lemma truthy_some (s : option string) text :
  s = Some text -> text <> EmptyString -> ISCSIDriver.truthy s = Some text.
Proof. intros -> Htext. now destruct text. Qed.

(** The auth and geometry blocks do not touch the trace, whatever they
    return. *)
Lemma set_auth_trace v properties (t : trace) :
  snd (ISCSIDriver._set_auth v properties t) = t.
Proof.
  unfold ISCSIDriver._set_auth.
  destruct (ISCSIDriver.truthy (provider_auth v)) as [auth|]; [|reflexivity].
  unfold bind, ISCSIDriver.unpack3.
  now destruct (PyStr.split auth) as [|a [|b [|c [|d rest]]]].
Qed.

Lemma set_geometry_trace v properties (t : trace) :
  snd (ISCSIDriver._set_geometry v properties t) = t.
Proof.
  unfold ISCSIDriver._set_geometry.
  destruct (ISCSIDriver.truthy (provider_geometry v)) as [geometry|];
    [|reflexivity].
  unfold bind, ISCSIDriver.unpack2.
  now destruct (PyStr.split geometry) as [|a [|b [|c rest]]].
Qed.

Lemma set_auth_geometry_trace v properties (t : trace) :
  snd ((let* parsed := ISCSIDriver._set_auth v properties in
        ISCSIDriver._set_geometry v parsed) t) = t.
Proof.
  unfold bind. pose proof (set_auth_trace v properties t) as Hauth.
  destruct (ISCSIDriver._set_auth v properties t) as [[p1|e] t1];
    cbn [snd] in Hauth; subst t1; [|reflexivity].
  apply set_geometry_trace.
Qed.

(** Once the location is selected, nothing more is added to the trace. *)
Lemma get_iscsi_properties_trace v (t t0 : trace) location properties :
  ISCSIDriver._select_location configuration env v t
  = (Ok (location, properties), t0) ->
  snd (ISCSIDriver._get_iscsi_properties configuration env v t) = t0.
Proof.
  intros Hselect.
  destruct (Nat.leb_spec 2 (length (PyStr.split_on " " location))) as [Hlong|Hshort].
  - destruct (PyStr.split_on " " location) as [|first [|iqn rest]] eqn:Hsplit;
      [simpl in Hlong; lia | simpl in Hlong; lia |].
    destruct (split_on_cons "," first) as (portal & others & Hportal).
    destruct (set_target_lun_run
                configuration (first :: iqn :: rest)
                (<["target_iqn" := VStr iqn]>
                   (<["target_portal" := VStr portal]> properties)) t0)
      as (lun & Hlun & _).
    rewrite (get_iscsi_properties_located
               configuration env v t t0 location properties
               first iqn rest portal others lun Hselect Hsplit Hportal Hlun).
    apply set_auth_geometry_trace.
  - now rewrite (get_iscsi_properties_short
                   configuration env v t t0 location properties Hselect Hshort).
Qed.

Lemma find_first {A} (f : A -> bool) (before after : list A) x :
  (forall y, In y before -> f y = false) -> f x = true ->
  List.find f (before ++ x :: after) = Some x.
Proof.
  intros Hbefore Hx. induction before as [|y before IH]; simpl.
  - now rewrite Hx.
  - rewrite (Hbefore y) by now left. apply IH.
    intros z Hz. apply Hbefore. now right.
Qed.

End ResolutionPaths.

(** X16.  With a [provider_location] stored, [_get_iscsi_properties] works
    from the record alone: whether it returns or raises, it runs no
    discovery, logs nothing and leaves the trace as it found it. *)
Theorem stored_location_needs_no_discovery
        configuration env v (t : trace) location :
  provider_location v = Some location ->
  location <> EmptyString ->
  snd (ISCSIDriver._get_iscsi_properties configuration env v t) = t.
Proof.
  intros Hlocation Hnonempty.
  apply get_iscsi_properties_trace
    with (location := location)
         (properties := <["target_discovered" := VBool false]> ∅).
  apply select_location_stored. now apply truthy_some.
Qed.

Lemma stored_location_needs_no_discovery_witness :
  snd Scenario.resolve_short_auth = [].
Proof.
  apply (stored_location_needs_no_discovery
           Scenario.configuration Scenario.invalid_device
           Scenario.short_auth_volume []
           "10.0.0.5:3260,1 iqn.example:target").
  - reflexivity.
  - discriminate.
Defined.

(** X17.  A stored [provider_location] without a space in it has no target
    name: [_get_iscsi_properties] raises [IndexError] at [results[1]], not
    [InvalidVolume], and falls back to no discovery. *)
Theorem location_without_target_raises_index_error
        configuration env v (t : trace) location :
  provider_location v = Some location ->
  location <> EmptyString ->
  PyStr.contains " " location = false ->
  ISCSIDriver._get_iscsi_properties configuration env v t = (Err IndexError, t).
Proof.
  intros Hlocation Hnonempty Hspace.
  apply get_iscsi_properties_short
    with (location := location)
         (properties := <["target_discovered" := VBool false]> ∅).
  - apply select_location_stored. now apply truthy_some.
  - rewrite split_on_without_separator by exact Hspace. simpl. lia.
Qed.

Lemma location_without_target_raises_index_error_witness :
  ISCSIDriver._get_iscsi_properties
    Scenario.configuration Scenario.invalid_device
    Scenario.portal_only_volume []
  = (Err IndexError, []).
Proof.
  apply (location_without_target_raises_index_error
           Scenario.configuration Scenario.invalid_device
           Scenario.portal_only_volume [] "10.0.0.5:3260,1").
  - reflexivity.
  - discriminate.
  - reflexivity.
Defined.

(** X18.  A third field that is an integer is the LUN, whatever the backend
    and the helper are: the default for a missing LUN is not consulted. *)
Theorem valid_lun_field_is_used
        configuration env v (t t0 t' : trace) location properties field n p :
  ISCSIDriver._select_location configuration env v t
  = (Ok (location, properties), t0) ->
  PyStr.split_on " " location !! 2%nat = Some field ->
  PyStr.int field = Some n ->
  ISCSIDriver._get_iscsi_properties configuration env v t = (Ok p, t') ->
  p !! "target_lun" = Some (VInt n).
Proof.
  intros Hselect Hfield Hint Hrun.
  destruct (get_iscsi_properties_success configuration env v t t' p Hrun)
    as (location' & first & iqn & rest & portal & others & lun & t0'
        & Hselect' & Hfields & _ & Hvalid & Hrest).
  rewrite Hselect in Hselect'. inversion Hselect'; subst location' t0'.
  rewrite Hfields in Hfield. cbn in Hfield.
  rewrite (Hvalid field n Hfield Hint) in Hrest.
  eapply set_auth_geometry_keeps with (key := "target_lun") in Hrest
      as [_ ->]; try discriminate.
  reflexivity.
Qed.

Lemma valid_lun_field_is_used_witness :
  exists p,
    fst (ISCSIDriver._get_iscsi_properties
           Scenario.configuration Scenario.invalid_device
           Scenario.chap_volume []) = Ok p
    /\ p !! "target_lun" = Some (VInt 7).
Proof.
  eexists. split; [reflexivity|].
  apply (valid_lun_field_is_used
           Scenario.configuration Scenario.invalid_device
           Scenario.chap_volume [] [] []
           "10.0.0.5:3260,1 iqn.example:target 7"
           (<["target_discovered" := VBool false]> ∅) "7" 7);
    reflexivity.
Defined.

(** X19.  A [provider_geometry] that is not empty and does not split into
    two fields makes the resolution fail like a malformed [provider_auth]
    does: for a volume with a usable location and no auth, the unpacking
    raises the built-in [ValueError]. *)
Theorem malformed_geometry_raises_value_error
        configuration env v (t : trace) location first iqn rest geometry :
  ISCSIDriver.truthy (provider_location v) = Some location ->
  PyStr.split_on " " location = first :: iqn :: rest ->
  ISCSIDriver.truthy (provider_auth v) = None ->
  provider_geometry v = Some geometry ->
  geometry <> EmptyString ->
  length (PyStr.split geometry) <> 2%nat ->
  ISCSIDriver._get_iscsi_properties configuration env v t
  = (Err (ISCSIDriver.unpack_error 2 (PyStr.split geometry)), t)
  /\ exists msg,
       ISCSIDriver.unpack_error 2 (PyStr.split geometry) = ValueError msg.
Proof.
  intros Hlocation Hfields Hauth Hgeometry Hnonempty Hlen.
  split; [|apply unpack_error_is_value_error].
  destruct (split_on_cons "," first) as (portal & others & Hportal).
  destruct (set_target_lun_run
              configuration (first :: iqn :: rest)
              (<["target_iqn" := VStr iqn]>
                 (<["target_portal" := VStr portal]>
                    (<["target_discovered" := VBool false]> ∅))) t)
    as (lun & Hlun & _).
  rewrite (get_iscsi_properties_located
             configuration env v t t location _
             first iqn rest portal others lun
             (select_location_stored configuration env v t location Hlocation)
             Hfields Hportal Hlun).
  unfold bind, ISCSIDriver._set_auth, ISCSIDriver._set_geometry.
  rewrite Hauth. unfold ret.
  rewrite (truthy_some _ _ Hgeometry Hnonempty). unfold bind.
  now rewrite unpack2_mismatch.
Qed.

Lemma malformed_geometry_raises_value_error_witness :
  ISCSIDriver._get_iscsi_properties
    Scenario.configuration Scenario.invalid_device
    Scenario.short_geometry_volume []
  = (Err (ValueError "need more than 1 value to unpack"), []).
Proof.
  apply (malformed_geometry_raises_value_error
           Scenario.configuration Scenario.invalid_device
           Scenario.short_geometry_volume []
           "10.0.0.5:3260,1 iqn.example:target"
           "10.0.0.5:3260,1" "iqn.example:target" [] "4096");
    try reflexivity; discriminate.
Defined.

(** X20.  Without a stored location, the properties are parsed from the
    first line of the discovery output that contains both
    [iscsi_ip_address] and the volume name, earlier lines that lack one of
    them being skipped; [target_discovered] is then true, and the find is
    logged after the warning and the command. *)
Theorem discovery_uses_first_matching_line
        configuration env v (t : trace) out err before location after
        first iqn rest :
  provider_location v = None \/ provider_location v = Some EmptyString ->
  execute_outcome
    env (executions t)
    ["iscsiadm"; "-m"; "discovery"; "-t"; "sendtargets"; "-p"; host v]
    {[ "run_as_root" := VBool true ]} = Ok (out, err) ->
  PyStr.splitlines out = before ++ location :: after ->
  (forall line,
     In line before ->
     ~ (PyStr.contains (iscsi_ip_address configuration) line = true
        /\ PyStr.contains (name v) line = true)) ->
  PyStr.contains (iscsi_ip_address configuration) location = true ->
  PyStr.contains (name v) location = true ->
  PyStr.split_on " " location = first :: iqn :: rest ->
  ISCSIDriver.truthy (provider_auth v) = None ->
  ISCSIDriver.truthy (provider_geometry v) = None ->
  exists p portal others,
    ISCSIDriver._get_iscsi_properties configuration env v t
    = (Ok p,
       t ++ [Log WARN "ISCSI provider_location not stored, using discovery" [];
             Execute
               ["iscsiadm"; "-m"; "discovery"; "-t"; "sendtargets"; "-p"; host v]
               {[ "run_as_root" := VBool true ]};
             Log DEBUG "ISCSI Discovery: Found %s" [VStr location]])
    /\ PyStr.split_on "," first = portal :: others
    /\ p !! "target_portal" = Some (VStr portal)
    /\ p !! "target_iqn" = Some (VStr iqn)
    /\ p !! "target_discovered" = Some (VBool true).
Proof.
  intros Hlocation Hout Hlines Hbefore Hip Hname Hfields Hauth Hgeometry.
  assert (Hfalsy : ISCSIDriver.truthy (provider_location v) = None)
    by (destruct Hlocation as [-> | ->]; reflexivity).
  assert (Hnonempty : ISCSIDriver.truthy (Some location) = Some location).
  { destruct location; [discriminate Hfields | reflexivity]. }
  assert (Hselect :
            ISCSIDriver._select_location configuration env v t
            = (Ok (location, <["target_discovered" := VBool true]> ∅),
               t ++ [Log WARN
                         "ISCSI provider_location not stored, using discovery" [];
                     Execute
                       ["iscsiadm"; "-m"; "discovery"; "-t"; "sendtargets";
                        "-p"; host v]
                       {[ "run_as_root" := VBool true ]};
                     Log DEBUG "ISCSI Discovery: Found %s" [VStr location]])).
  { unfold ISCSIDriver._select_location. rewrite Hfalsy. unfold bind at 1.
    rewrite (do_iscsi_discovery_run configuration env v t out err Hout).
    rewrite Hlines, find_first.
    - rewrite Hnonempty. unfold_eff. now rewrite <- app_assoc.
    - intros line Hline. specialize (Hbefore line Hline).
      destruct (PyStr.contains (iscsi_ip_address configuration) line);
        destruct (PyStr.contains (name v) line); try reflexivity.
      contradict Hbefore. now split.
    - now rewrite Hip, Hname. }
  destruct (split_on_cons "," first) as (portal & others & Hportal).
  destruct (set_target_lun_run
              configuration (first :: iqn :: rest)
              (<["target_iqn" := VStr iqn]>
                 (<["target_portal" := VStr portal]>
                    (<["target_discovered" := VBool true]> ∅)))
              (t ++ [Log WARN
                         "ISCSI provider_location not stored, using discovery" [];
                     Execute
                       ["iscsiadm"; "-m"; "discovery"; "-t"; "sendtargets";
                        "-p"; host v]
                       {[ "run_as_root" := VBool true ]};
                     Log DEBUG "ISCSI Discovery: Found %s" [VStr location]]))
    as (lun & Hlun & _).
  eexists. exists portal, others.
  rewrite (get_iscsi_properties_located
             configuration env v t _ location _
             first iqn rest portal others lun Hselect Hfields Hportal Hlun).
  rewrite set_auth_geometry_absent by assumption.
  repeat split. exact Hportal.
Qed.

Lemma discovery_uses_first_matching_line_witness :
  exists p portal others,
    ISCSIDriver._get_iscsi_properties
      Scenario.configuration Scenario.discovers_own_export
      Scenario.unlocated_volume []
    = (Ok p,
       [Log WARN "ISCSI provider_location not stored, using discovery" [];
        Execute
          ["iscsiadm"; "-m"; "discovery"; "-t"; "sendtargets"; "-p"; "storage1"]
          {[ "run_as_root" := VBool true ]};
        Log DEBUG "ISCSI Discovery: Found %s" [VStr Scenario.own_export]])
    /\ PyStr.split_on "," "10.0.0.5:3260,1" = portal :: others
    /\ p !! "target_portal" = Some (VStr portal)
    /\ p !! "target_iqn"
       = Some (VStr "iqn.2010-10.org.openstack:volume-00000001")
    /\ p !! "target_discovered" = Some (VBool true).
Proof.
  apply (discovery_uses_first_matching_line
           Scenario.configuration Scenario.discovers_own_export
           Scenario.unlocated_volume []
           (Scenario.other_export +:+ String PyStr.LF Scenario.own_export)
           EmptyString [Scenario.other_export] Scenario.own_export []
           "10.0.0.5:3260,1" "iqn.2010-10.org.openstack:volume-00000001" []);
    try reflexivity.
  - left. reflexivity.
  - intros line [<- | []]. vm_compute. intros [_ Hname]. discriminate Hname.
Defined.

(** X21.  The discovery command is run once and not retried: when it
    raises, [_get_iscsi_properties] raises the same exception, not
    [InvalidVolume], after that single invocation. *)
Theorem failed_discovery_is_not_retried configuration env v (t : trace) e :
  provider_location v = None \/ provider_location v = Some EmptyString ->
  execute_outcome
    env (executions t)
    ["iscsiadm"; "-m"; "discovery"; "-t"; "sendtargets"; "-p"; host v]
    {[ "run_as_root" := VBool true ]} = Err e ->
  ISCSIDriver._get_iscsi_properties configuration env v t
  = (Err e,
     t ++ [Log WARN "ISCSI provider_location not stored, using discovery" [];
           Execute
             ["iscsiadm"; "-m"; "discovery"; "-t"; "sendtargets"; "-p"; host v]
             {[ "run_as_root" := VBool true ]}])
  /\ executions
       (snd (ISCSIDriver._get_iscsi_properties configuration env v t))
     = (executions t + 1)%nat.
Proof.
  intros Hlocation Hfail.
  assert (Hfalsy : ISCSIDriver.truthy (provider_location v) = None)
    by (destruct Hlocation as [-> | ->]; reflexivity).
  assert (Hrun :
            ISCSIDriver._get_iscsi_properties configuration env v t
            = (Err e,
               t ++ [Log WARN
                         "ISCSI provider_location not stored, using discovery" [];
                     Execute
                       ["iscsiadm"; "-m"; "discovery"; "-t"; "sendtargets";
                        "-p"; host v]
                       {[ "run_as_root" := VBool true ]}])).
  { unfold ISCSIDriver._get_iscsi_properties, ISCSIDriver._select_location.
    rewrite Hfalsy.
    unfold ISCSIDriver._do_iscsi_discovery, VolumeDriver._execute. unfold_eff.
    rewrite executions_snoc. cbn [is_execute].
    rewrite Nat.add_0_r, Hfail. now rewrite <- app_assoc. }
  split; [exact Hrun|]. rewrite Hrun. cbn [snd].
  rewrite executions_app. reflexivity.
Qed.

Lemma failed_discovery_is_not_retried_witness :
  fst (ISCSIDriver._get_iscsi_properties
         Scenario.configuration Scenario.failing_discovery
         Scenario.unlocated_volume [])
  = Err (ProcessExecutionError "iscsiadm: cannot make connection").
Proof.
  destruct (failed_discovery_is_not_retried
              Scenario.configuration Scenario.failing_discovery
              Scenario.unlocated_volume []
              (ProcessExecutionError "iscsiadm: cannot make connection"))
    as [Hrun _].
  - left. reflexivity.
  - reflexivity.
  - now rewrite Hrun.
Defined.

(** X22.  A well-formed record always resolves: with a stored location of at
    least two fields, an auth string that is absent or has three fields and
    a geometry that is absent or has two, [_get_iscsi_properties] returns
    properties, and does so without touching the trace. *)
Theorem well_formed_record_resolves
        configuration env v (t : trace) location first iqn rest :
  ISCSIDriver.truthy (provider_location v) = Some location ->
  PyStr.split_on " " location = first :: iqn :: rest ->
  (ISCSIDriver.truthy (provider_auth v) = None
   \/ exists auth, ISCSIDriver.truthy (provider_auth v) = Some auth
                   /\ length (PyStr.split auth) = 3%nat) ->
  (ISCSIDriver.truthy (provider_geometry v) = None
   \/ exists geometry, ISCSIDriver.truthy (provider_geometry v) = Some geometry
                       /\ length (PyStr.split geometry) = 2%nat) ->
  exists p,
    ISCSIDriver._get_iscsi_properties configuration env v t = (Ok p, t).
Proof.
  intros Hlocation Hfields Hauth Hgeometry.
  destruct (split_on_cons "," first) as (portal & others & Hportal).
  destruct (set_target_lun_run
              configuration (first :: iqn :: rest)
              (<["target_iqn" := VStr iqn]>
                 (<["target_portal" := VStr portal]>
                    (<["target_discovered" := VBool false]> ∅))) t)
    as (lun & Hlun & _).
  rewrite (get_iscsi_properties_located
             configuration env v t t location _
             first iqn rest portal others lun
             (select_location_stored configuration env v t location Hlocation)
             Hfields Hportal Hlun).
  unfold bind, ISCSIDriver._set_auth, ISCSIDriver._set_geometry.
  destruct Hauth as [-> | (auth & -> & Hauth)];
    destruct Hgeometry as [-> | (geometry & -> & Hgeometry)]; unfold_eff.
  - eauto.
  - destruct (PyStr.split geometry) as [|a [|b [|c more]]];
      try discriminate Hgeometry. cbn. eauto.
  - destruct (PyStr.split auth) as [|a [|b [|c [|d more]]]];
      try discriminate Hauth. cbn. eauto.
  - destruct (PyStr.split auth) as [|a [|b [|c [|d more]]]];
      try discriminate Hauth.
    destruct (PyStr.split geometry) as [|a' [|b' [|c' more']]];
      try discriminate Hgeometry. cbn. eauto.
Qed.

Lemma well_formed_record_resolves_witness :
  exists p,
    ISCSIDriver._get_iscsi_properties
      Scenario.configuration Scenario.invalid_device
      Scenario.geometry_volume [] = (Ok p, []).
Proof.
  apply (well_formed_record_resolves
           Scenario.configuration Scenario.invalid_device
           Scenario.geometry_volume []
           "10.0.0.5:3260,1 iqn.example:target"
           "10.0.0.5:3260,1" "iqn.example:target" []).
  - reflexivity.
  - reflexivity.
  - left. reflexivity.
  - right. exists "4096 512". split; reflexivity.
Defined.

(** ** The initiator name and the volume stats *)

Section Initiator.

Variable read_file_as_root_outcome : string -> result string.

(** A line that starts with [InitiatorName=] is cut after that first [=]. *)
Lemma initiator_line l :
  String.prefix "InitiatorName=" l = true ->
  exists value,
    l = "InitiatorName=" +:+ value
    /\ PyStr.index_char "=" l = Some 13%nat
    /\ PyStr.drop 14 l = value.
Proof.
  intros Hprefix. apply prefix_iff in Hprefix as [value ->].
  exists value. repeat split.
Qed.

Lemma get_iscsi_initiator_loop_run lines (t : trace) :
  exists r,
    ISCSIDriver._get_iscsi_initiator_loop lines t = (Ok r, t)
    /\ (r = None <->
        forall l, In l lines -> String.prefix "InitiatorName=" l = false).
Proof.
  induction lines as [|l lines IH]; cbn [ISCSIDriver._get_iscsi_initiator_loop].
  - exists None. split; [reflexivity|]. split; [intros _ l [] | reflexivity].
  - destruct (String.prefix "InitiatorName=" l) eqn:Hprefix.
    + destruct (initiator_line l Hprefix) as (value & _ & -> & _).
      eexists. split; [reflexivity|]. split; [discriminate|].
      intros Hnone. rewrite (Hnone l) in Hprefix; [discriminate | now left].
    + destruct IH as (r & Hrun & Hnone). exists r. split; [exact Hrun|].
      rewrite Hnone. split.
      * intros Hall l' [<- | Hin]; [exact Hprefix | now apply Hall].
      * intros Hall l' Hin. apply Hall. now right.
Qed.

Lemma get_iscsi_initiator_loop_first before value after (t : trace) :
  (forall l, In l before -> String.prefix "InitiatorName=" l = false) ->
  ISCSIDriver._get_iscsi_initiator_loop
    (before ++ ("InitiatorName=" +:+ value) :: after) t
  = (Ok (Some (PyStr.strip value)), t).
Proof.
  intros Hbefore. induction before as [|l before IH].
  - cbn [app ISCSIDriver._get_iscsi_initiator_loop].
    assert (Hprefix : String.prefix "InitiatorName=" ("InitiatorName=" +:+ value)
                      = true)
      by (apply prefix_iff; now exists value).
    rewrite Hprefix. reflexivity.
  - cbn [app ISCSIDriver._get_iscsi_initiator_loop].
    rewrite (Hbefore l) by now left.
    apply IH. intros l' Hin. apply Hbefore. now right.
Qed.

End Initiator.

(** X23.  [_get_iscsi_initiator] returns what follows [InitiatorName=] on
    the first line of the file that starts with it, without the white space
    around it; lines before it that start otherwise (comments) are skipped
    and an [=] inside the name is kept. *)
Theorem initiator_name_is_read_from_first_entry
        read_file_as_root_outcome contents before value after (t : trace) :
  read_file_as_root_outcome "/etc/iscsi/initiatorname.iscsi" = Ok contents ->
  PyStr.split_on PyStr.LF contents
  = before ++ ("InitiatorName=" +:+ value) :: after ->
  (forall l, In l before -> String.prefix "InitiatorName=" l = false) ->
  ISCSIDriver._get_iscsi_initiator read_file_as_root_outcome t
  = (Ok (Some (PyStr.strip value)), t).
Proof.
  intros Hread Hlines Hbefore.
  unfold ISCSIDriver._get_iscsi_initiator, ISCSIDriver.read_file_as_root, bind.
  rewrite Hread, Hlines. now apply get_iscsi_initiator_loop_first.
Qed.

Lemma initiator_name_is_read_from_first_entry_witness :
  ISCSIDriver._get_iscsi_initiator Scenario.reads_initiator_file []
  = (Ok (Some "iqn.1993-08.org.debian:01:host"), []).
Proof.
  apply (initiator_name_is_read_from_first_entry
           Scenario.reads_initiator_file Scenario.initiator_file
           ["## DO NOT EDIT OR REMOVE THIS FILE!"]
           "iqn.1993-08.org.debian:01:host " [EmptyString] []).
  - reflexivity.
  - reflexivity.
  - intros l [<- | []]. reflexivity.
Defined.

(** X24.  Once the file is read [_get_iscsi_initiator] raises nothing, and
    it returns [None] exactly when no line of the file starts with
    [InitiatorName=]. *)
Theorem initiator_name_is_none_without_entry
        read_file_as_root_outcome contents (t : trace) :
  read_file_as_root_outcome "/etc/iscsi/initiatorname.iscsi" = Ok contents ->
  exists r,
    ISCSIDriver._get_iscsi_initiator read_file_as_root_outcome t = (Ok r, t)
    /\ (r = None <->
        forall l, In l (PyStr.split_on PyStr.LF contents) ->
                  String.prefix "InitiatorName=" l = false).
Proof.
  intros Hread.
  unfold ISCSIDriver._get_iscsi_initiator, ISCSIDriver.read_file_as_root, bind.
  rewrite Hread. apply get_iscsi_initiator_loop_run.
Qed.

Lemma initiator_name_is_none_without_entry_witness :
  exists r,
    ISCSIDriver._get_iscsi_initiator (fun _ => Ok "# empty") [] = (Ok r, [])
    /\ (r = None <->
        forall l, In l (PyStr.split_on PyStr.LF "# empty") ->
                  String.prefix "InitiatorName=" l = false).
Proof.
  apply (initiator_name_is_none_without_entry (fun _ => Ok "# empty") "# empty" []).
  reflexivity.
Defined.

(** X25.  [get_volume_stats(refresh=True)] replaces the stats by a fresh
    dictionary that does not depend on the old one: eight entries, the
    backend name being the configured one or [Generic_iSCSI] when it is
    missing or empty, and [reserved_percentage] 100.  A call without refresh
    right after returns the same dictionary and logs nothing. *)
Theorem refreshed_stats_replace_the_old volume_backend_name :
  exists stats : pydict,
    stats !! "volume_backend_name"
    = Some (VStr (match volume_backend_name with
                  | Some EmptyString | None => "Generic_iSCSI"
                  | Some backend_name => backend_name
                  end))
    /\ stats !! "reserved_percentage" = Some (VInt 100)
    /\ size stats = 8%nat
    /\ forall (self : ISCSIDriver.instance) (t : trace),
         ISCSIDriver.get_volume_stats volume_backend_name true self t
         = (Ok (stats, {| ISCSIDriver._stats := stats |}),
            t ++ [Log DEBUG "Updating volume status" []])
         /\ ISCSIDriver.get_volume_stats
              volume_backend_name false {| ISCSIDriver._stats := stats |}
              (t ++ [Log DEBUG "Updating volume status" []])
            = (Ok (stats, {| ISCSIDriver._stats := stats |}),
               t ++ [Log DEBUG "Updating volume status" []]).
Proof.
  eexists. split; [|split; [|split]]; cycle 3.
  - intros self t. split; reflexivity.
  - cbv zeta. rewrite !lookup_insert_ne by discriminate.
    rewrite lookup_insert_eq. now destruct volume_backend_name as [[|]|].
  - reflexivity.
  - cbv zeta. rewrite !map_size_insert_None; try reflexivity;
      rewrite ?lookup_insert_ne by discriminate; apply lookup_empty.
Qed.

(** X26.  A copy that worked is still reported as failed when the teardown
    fails: after a successful attach and a successful copy, in
    [copy_image_to_volume] and in [copy_volume_to_image] alike and each on
    its own, an exception of [disconnect_volume] is what the method raises,
    and [terminate_connection] is not called. *)
Theorem failed_disconnect_fails_a_finished_copy
        configuration env self context v image_service properties :
  get_connector_properties_outcome env = Ok properties ->
  (forall image_id (t t1 : trace) conn device c path e,
     VolumeDriver._attach_volume
       configuration env self context v properties
       (before_attach "copy_image_to_volume %s." v t)
     = (Ok (conn, device, c), t1) ->
     device !! "path" = Some path ->
     fetch_to_raw_outcome env image_id path = Ok tt ->
     disconnect_volume_outcome env c (data conn) device = Err e ->
     VolumeDriver.copy_image_to_volume
       configuration env self context v image_service image_id t
     = (Err e,
        t1 ++ [FetchToRaw image_id path;
               DisconnectVolume c (data conn) device]))
  /\ (forall image_meta (t t1 : trace) conn device c path e,
        VolumeDriver._attach_volume
          configuration env self context v properties
          (before_attach "copy_volume_to_image %s." v t)
        = (Ok (conn, device, c), t1) ->
        device !! "path" = Some path ->
        upload_volume_outcome env image_meta path = Ok tt ->
        disconnect_volume_outcome env c (data conn) device = Err e ->
        VolumeDriver.copy_volume_to_image
          configuration env self context v image_service image_meta t
        = (Err e,
           t1 ++ [UploadVolume image_meta path;
                  DisconnectVolume c (data conn) device])).
Proof.
  intros Hprops. split.
  - intros image_id t t1 conn device c path e Hattach Hpath Hfetch Hdisconnect.
    rewrite (copy_image_to_volume_attached _ _ _ _ _ _ _ _ _ _ _ _ _ _
               Hprops Hattach Hpath).
    unfold after_teardown. now rewrite Hdisconnect, <- !app_assoc.
  - intros image_meta t t1 conn device c path e Hattach Hpath Hupload Hdisconnect.
    rewrite (copy_volume_to_image_attached _ _ _ _ _ _ _ _ _ _ _ _ _ _
               Hprops Hattach Hpath).
    unfold after_teardown. now rewrite Hdisconnect, <- !app_assoc.
Qed.

Lemma failed_disconnect_fails_a_finished_copy_witness :
  fst Scenario.copy_then_failing_disconnect
  = Err (OtherError "disconnect failed")
  /\ fst (VolumeDriver.copy_volume_to_image
            Scenario.configuration Scenario.failing_disconnect
            (Scenario.iscsi_driver Scenario.failing_disconnect)
            VNone Scenario.located_volume VNone ∅ [])
     = Err (OtherError "disconnect failed").
Proof.
  destruct (failed_disconnect_fails_a_finished_copy
              Scenario.configuration Scenario.failing_disconnect
              (Scenario.iscsi_driver Scenario.failing_disconnect)
              VNone Scenario.located_volume VNone Scenario.host_properties)
    as [Hfetch Hupload]; [reflexivity|].
  split.
  - unfold Scenario.copy_then_failing_disconnect.
    rewrite (Hfetch "image-1" []
               (before_attach "copy_image_to_volume %s."
                              Scenario.located_volume []
                  ++ [InitializeConnection Scenario.located_volume
                                           Scenario.host_properties]
                  ++ attach_calls Scenario.configuration Scenario.connection
                                  Scenario.iscsi_connector (VStr "/dev/sdb"))
               Scenario.connection Scenario.device Scenario.iscsi_connector
               (VStr "/dev/sdb") (OtherError "disconnect failed"));
      reflexivity.
  - rewrite (Hupload ∅ []
               (before_attach "copy_volume_to_image %s."
                              Scenario.located_volume []
                  ++ [InitializeConnection Scenario.located_volume
                                           Scenario.host_properties]
                  ++ attach_calls Scenario.configuration Scenario.connection
                                  Scenario.iscsi_connector (VStr "/dev/sdb"))
               Scenario.connection Scenario.device Scenario.iscsi_connector
               (VStr "/dev/sdb") (OtherError "disconnect failed"));
      reflexivity.
Defined.
